(** * A shallow embedding of the prompt-enhancer core

    Python sources embedded here:
    - [core/models.py]                 : the data model;
    - [agents/shadow_critic.py]        : [ShadowCritic.critique];
    - [agents/category_router.py]      : [CategoryRouter.detect_category] and its
                                          two helpers;
    - [agents/parameter_validator.py]  : [ParameterValidator.validate] and
                                          [get_questions_for_missing];
    - [agents/refiner.py]              : [PromptRefiner.refine],
                                          [refine_iterative], [generate_explanation];
    - [core/orchestrator.py]           : [analyze_prompt], [refine_prompt],
                                          [_save_to_db].

    The inference service and the database are external: every call to them is
    an event of a trace, and their answers come from oracles indexed by the
    position of the call in the trace, so that one service may answer the same
    question differently on different calls.  [json.loads] is the standard
    library's, and the development is parametric in it. *)

From Stdlib Require Import String Ascii List ZArith QArith Qminmax Bool Lia DecimalString.
Import ListNotations.
Open Scope Z_scope.
Open Scope string_scope.
Set Warnings "-register-all".

(* ------------------------------------------------------------------ *)
(** ** Python values and exceptions *)

(** A JSON document as [json.loads] returns it.  Numbers are exact
    rationals (a JSON number literal is a finite decimal). *)
Inductive json : Type :=
| JNull
| JBool (b : bool)
| JNum (q : Q)
| JStr (s : string)
| JArr (l : list json)
| JObj (kvs : list (string * json)).

(** The exceptions the embedded code can raise. *)
Inductive exn : Type :=
| InferenceError      (* the inference call failed before answering *)
| JSONDecodeError
| AttributeError
| TypeError
| KeyError
| ValueError
| ValidationError     (* pydantic *)
| DatabaseError.

Inductive outcome (A : Type) : Type :=
| Ok (a : A)
| Raise (e : exn).
Arguments Ok {A} a.
Arguments Raise {A} e.

Definition obind {A B} (m : outcome A) (f : A -> outcome B) : outcome B :=
  match m with
  | Ok a => f a
  | Raise e => Raise e
  end.

Notation "'let?' x ':=' m 'in' k" := (obind m (fun x => k))
  (at level 200, x name, m at level 100, k at level 200).

Fixpoint omap {A B} (f : A -> outcome B) (l : list A) : outcome (list B) :=
  match l with
  | [] => Ok []
  | x :: t => let? y := f x in let? ys := omap f t in Ok (y :: ys)
  end.

(** [dict[k]] on a dictionary built by [json.loads]: the last binding of a
    repeated key wins. *)
Fixpoint lookup_last (k : string) (l : list (string * json)) : option json :=
  match l with
  | [] => None
  | (k', v) :: t =>
      match lookup_last k t with
      | Some w => Some w
      | None => if String.eqb k k' then Some v else None
      end
  end.

(** [result.get(k, d)]: only dictionaries have [get]. *)
Definition py_get (j : json) (k : string) (d : json) : outcome json :=
  match j with
  | JObj o => Ok (match lookup_last k o with Some v => v | None => d end)
  | _ => Raise AttributeError
  end.

(** [result[k]] *)
Definition py_getitem (j : json) (k : string) : outcome json :=
  match j with
  | JObj o => match lookup_last k o with Some v => Ok v | None => Raise KeyError end
  | _ => Raise TypeError
  end.

(** [for x in v]: lists, dictionaries (their keys) and strings (their
    characters) are iterable. *)
Definition py_iter (j : json) : outcome (list json) :=
  match j with
  | JArr l => Ok l
  | JObj o => Ok (map (fun kv => JStr (fst kv)) o)
  | JStr s => Ok (map (fun c => JStr (String c EmptyString)) (list_ascii_of_string s))
  | _ => Raise TypeError
  end.

(** Decimal numerals [[+|-]digits[.digits]], as [float()] and pydantic read
    them from a string (exponents, [inf], [nan], surrounding blanks and
    underscores are not modelled). *)
Definition digit_val (c : ascii) : option Z :=
  let n := nat_of_ascii c in
  if (48 <=? n)%nat && (n <=? 57)%nat then Some (Z.of_nat (n - 48)) else None.

Fixpoint parse_unsigned (s : string) (acc : Z) (dot : bool) (frac ndig : nat)
  : option Q :=
  match s with
  | EmptyString =>
      if (ndig =? 0)%nat then None
      else Some (Qmake acc (Z.to_pos (10 ^ Z.of_nat frac)))
  | String c rest =>
      if Ascii.eqb c "." then
        if dot then None else parse_unsigned rest acc true frac ndig
      else match digit_val c with
           | Some d => parse_unsigned rest (acc * 10 + d) dot
                         (if dot then S frac else frac) (S ndig)
           | None => None
           end
  end.

Definition parse_decimal (s : string) : option Q :=
  match s with
  | String c rest =>
      if Ascii.eqb c "-" then option_map Qopp (parse_unsigned rest 0 false 0 0)
      else if Ascii.eqb c "+" then parse_unsigned rest 0 false 0 0
      else parse_unsigned s 0 false 0 0
  | EmptyString => None
  end.

Definition q_integral (q : Q) : option Z :=
  if Z.eqb (Z.modulo (Qnum q) (Zpos (Qden q))) 0
  then Some (Z.div (Qnum q) (Zpos (Qden q))) else None.

(** Pydantic's lax validation of an [int] field. *)
Definition pyd_int (j : json) : outcome Z :=
  match j with
  | JNum q => match q_integral q with Some z => Ok z | None => Raise ValidationError end
  | JBool b => Ok (if b then 1%Z else 0%Z)
  | JStr s => match option_map q_integral (parse_decimal s) with
              | Some (Some z) => Ok z
              | _ => Raise ValidationError
              end
  | _ => Raise ValidationError
  end.

(** Pydantic's lax validation of a [bool] field (lower-case strings only). *)
Definition pyd_bool (j : json) : outcome bool :=
  match j with
  | JBool b => Ok b
  | JNum q => if Qeq_bool q 0 then Ok false
              else if Qeq_bool q 1 then Ok true else Raise ValidationError
  | JStr s =>
      if existsb (String.eqb s) ["0"; "off"; "f"; "false"; "n"; "no"] then Ok false
      else if existsb (String.eqb s) ["1"; "on"; "t"; "true"; "y"; "yes"] then Ok true
      else Raise ValidationError
  | _ => Raise ValidationError
  end.

(** A [str] field: pydantic accepts only strings. *)
Definition req_str (o : list (string * json)) (k : string) : outcome string :=
  match lookup_last k o with
  | Some (JStr s) => Ok s
  | _ => Raise ValidationError
  end.

Definition opt_str (o : list (string * json)) (k d : string) : outcome string :=
  match lookup_last k o with
  | None => Ok d
  | Some (JStr s) => Ok s
  | Some _ => Raise ValidationError
  end.

(* ------------------------------------------------------------------ *)
(** ** The data model ([core/models.py]) *)

Inductive PromptCategory : Type :=
| CODE | CREATIVE | IMAGE_GENERATION | ANALYSIS | BUSINESS | EDUCATION | GENERAL.

Definition category_value (c : PromptCategory) : string :=
  match c with
  | CODE => "code"
  | CREATIVE => "creative"
  | IMAGE_GENERATION => "image_generation"
  | ANALYSIS => "analysis"
  | BUSINESS => "business"
  | EDUCATION => "education"
  | GENERAL => "general"
  end.

(** Enum members in declaration order. *)
Definition all_categories : list PromptCategory :=
  [CODE; CREATIVE; IMAGE_GENERATION; ANALYSIS; BUSINESS; EDUCATION; GENERAL].

(** [PromptCategory(v)]: look the value up, [ValueError] otherwise. *)
Definition PromptCategory_of (v : json) : outcome PromptCategory :=
  match v with
  | JStr s =>
      match find (fun c => String.eqb (category_value c) s) all_categories with
      | Some c => Ok c
      | None => Raise ValueError
      end
  | _ => Raise ValueError
  end.

Module Weakness.
Record t := mk {
  type : string;
  description : string;
  suggestion : string;
  severity : string
}.
(** [Weakness(...)] applied to the keyword arguments [w]. *)
Definition of_kwargs (w : json) : outcome t :=
  match w with
  | JObj o =>
      let? ty := req_str o "type" in
      let? de := req_str o "description" in
      let? su := req_str o "suggestion" in
      let? se := opt_str o "severity" "medium" in
      Ok (mk ty de su se)
  | _ => Raise TypeError
  end.
End Weakness.

Module MissingParameter.
Record t := mk {
  name : string;
  question : string;
  importance : string
}.
Definition of_kwargs (p : json) : outcome t :=
  match p with
  | JObj o =>
      let? n := req_str o "name" in
      let? q := req_str o "question" in
      let? i := opt_str o "importance" "recommended" in
      Ok (mk n q i)
  | _ => Raise TypeError
  end.
End MissingParameter.

Module ProTip.
Record t := mk {
  technique : string;
  title : string;
  suggestion : string;
  example : option string;
  impact : string
}.
Definition of_kwargs (p : json) : outcome t :=
  match p with
  | JObj o =>
      let? te := req_str o "technique" in
      let? ti := req_str o "title" in
      let? su := req_str o "suggestion" in
      let? ex := match lookup_last "example" o with
                 | None | Some JNull => Ok None
                 | Some (JStr s) => Ok (Some s)
                 | Some _ => Raise ValidationError
                 end in
      let? im := opt_str o "impact" "medium" in
      Ok (mk te ti su ex im)
  | _ => Raise TypeError
  end.
End ProTip.

Module CritiqueResult.
Record t := mk {
  weaknesses : list Weakness.t;
  missing_params : list MissingParameter.t;
  pro_tips : list ProTip.t;
  overall_score : Z;
  is_ready : bool
}.
(** [CritiqueResult(...)]: [overall_score] is an [int] with [ge=1, le=10]. *)
Definition build (ws : list Weakness.t) (mps : list MissingParameter.t)
           (tips : list ProTip.t) (score ready : json) : outcome t :=
  let? s := pyd_int score in
  if (1 <=? s)%Z && (s <=? 10)%Z then
    let? r := pyd_bool ready in Ok (mk ws mps tips s r)
  else Raise ValidationError.
(** [critique.missing_params = ...] *)
Definition set_missing_params (c : t) (m : list MissingParameter.t) : t :=
  mk (weaknesses c) m (pro_tips c) (overall_score c) (is_ready c).
End CritiqueResult.

Module RefinementResult.
Record t := mk {
  original_prompt : string;
  improved_prompt : string;
  category : PromptCategory;
  critique : CritiqueResult.t;
  iterations_used : Z;
  explanation : string;
  improvement_delta : Z
}.
End RefinementResult.

(** [PromptHistory] ([created_at], a clock reading, is left out). *)
Module PromptHistory.
Record t := mk {
  user_id : string;
  original_prompt : string;
  improved_prompt : string;
  category : PromptCategory;
  weaknesses : list Weakness.t;
  score_before : Z;
  score_after : Z;
  iterations : Z
}.
End PromptHistory.

(* ------------------------------------------------------------------ *)
(** ** [ShadowCritic.critique], the part after the inference call *)

(** What the inference service hands back: a failure before any answer, or
    the text of the answer. *)
Inductive response : Type :=
| RFail
| RText (s : string).

Section Critic.
Variable json_loads : string -> option json.   (* [None]: [JSONDecodeError] *)

(** The fallback result of the [except json.JSONDecodeError] branch. *)
Definition degraded_critique : CritiqueResult.t :=
  CritiqueResult.mk
    [Weakness.mk "unknown" "לא הצלחתי לנתח את הפרומפט" "נסה שוב" "medium"]
    [] [] 5 false.

(** Lines 124-134: conversion of the parsed answer into the models. *)
Definition critique_of_json (result : json) : outcome CritiqueResult.t :=
  let? wj := py_get result "weaknesses" (JArr []) in
  let? wl := py_iter wj in
  let? ws := omap Weakness.of_kwargs wl in
  let? mj := py_get result "missing_params" (JArr []) in
  let? ml := py_iter mj in
  let? mps := omap MissingParameter.of_kwargs ml in
  let? tj := py_get result "pro_tips" (JArr []) in
  let? tl := py_iter tj in
  let? tips := omap ProTip.of_kwargs tl in
  let? sc := py_get result "overall_score" (JNum 5) in
  let? rd := py_get result "is_ready" (JBool false) in
  CritiqueResult.build ws mps tips sc rd.

(** Lines 112-151: [JSONDecodeError] degrades, every other exception is
    re-raised. *)
Definition critique_of_response (r : response) : outcome CritiqueResult.t :=
  match r with
  | RFail => Raise InferenceError
  | RText s =>
      match json_loads s with
      | None => Ok degraded_critique
      | Some result => critique_of_json result
      end
  end.

End Critic.

(* ------------------------------------------------------------------ *)
(** ** [CategoryRouter] ([agents/category_router.py]) *)

(** [kw in s] on strings (UTF-8 bytes: for well-formed UTF-8, a byte
    substring is a code-point substring). *)
Fixpoint prefixb (p s : string) : bool :=
  match p, s with
  | EmptyString, _ => true
  | String a p', String b s' => Ascii.eqb a b && prefixb p' s'
  | String _ _, EmptyString => false
  end.

Fixpoint py_contains (s p : string) : bool :=
  prefixb p s || match s with
                 | EmptyString => false
                 | String _ s' => py_contains s' p
                 end.

Definition dquote : string := String (ascii_of_nat 34) EmptyString.

(** [self.keyword_hints], in insertion order. *)
Definition keyword_hints : list (PromptCategory * list string) :=
  [ (CODE,
      ["קוד"; "סקריפט"; "פונקציה"; "תכנות"; "python"; "javascript";
       "api"; "באג"; "debug"; "function"; "class"; "מחלקה"]);
    (IMAGE_GENERATION,
      ["midjourney"; "dall-e"; "dalle"; "stable diffusion"; "תמונה";
       "אילוסטרציה"; "ציור"; "רנדר"; "render"; "3d"; "פוטוריאליסטי";
       "אנימה"; "קריקטורה"; "דיוקן"; "נוף"; "לוגו"; "איור";
       "ויזואלי"; "גרפי"; "עיצוב תמונה"; "image"; "photo"; "art style";
       "aspect ratio"; "cinematic"; "realistic"; "hyper realistic"]);
    (CREATIVE,
      ["כתוב"; "סיפור"; "שיר"; "פוסט"; "קופי"; "שיווק"; "יצירתי";
       "תוכן"; "בלוג"; "מאמר"; "פרסום"; "סלוגן"]);
    (ANALYSIS,
      ["נתח"; "ניתוח"; "השווה"; "סקור"; "דו" ++ dquote ++ "ח"; "מחקר";
       "data"; "נתונים"; "סטטיסטיקה"; "מגמות"]);
    (BUSINESS,
      ["עסקי"; "אסטרטגיה"; "תקציב"; "roi"; "לקוח"; "מכירות";
       "שיווק"; "תכנית עסקית"; "pitch"; "משקיע"]);
    (EDUCATION,
      ["הסבר"; "למד"; "תרגיל"; "שיעור"; "קורס"; "מורה";
       "תלמיד"; "חינוך"; "tutorial"; "guide"]) ].

(** [sum(1 for kw in keywords if kw in prompt_lower)] *)
Definition kw_score (prompt_lower : string) (keywords : list string) : Z :=
  Z.of_nat (length (filter (py_contains prompt_lower) keywords)).

(** The loop filling [scores]: a category enters the dict only with a
    positive score. *)
Definition keyword_scores (prompt_lower : string) : list (PromptCategory * Z) :=
  fold_left (fun scores ck =>
               let score := kw_score prompt_lower (snd ck) in
               if (0 <? score)%Z then (scores ++ [(fst ck, score)])%list else scores)
            keyword_hints [].

(** One step of the builtin [max(iterable, key=...)]: the running maximum
    is replaced only by a strictly larger key. *)
Definition max_step {A} (best y : A * Z) : A * Z :=
  if (snd best <? snd y)%Z then y else best.

(** [max(scores, key=scores.get)] together with [scores[best]]. *)
Definition py_max_key {A} (d : list (A * Z)) : option (A * Z) :=
  match d with
  | [] => None
  | x :: t => Some (fold_left max_step t x)
  end.

Section Router.
(** [str.lower]: Unicode case mapping, a parameter of the development. *)
Variable lower : string -> string.

Definition _detect_with_keywords (prompt : string) : PromptCategory * Q :=
  let prompt_lower := lower prompt in
  let scores := keyword_scores prompt_lower in
  match py_max_key scores with
  | None => (GENERAL, 3 # 10)
  | Some (best_category, max_score) =>
      (best_category, Qmin (9 # 10) ((3 # 10) + inject_Z max_score * (15 # 100))%Q)
  end.

Variable json_loads : string -> option json.

(** [float(x)] *)
Definition py_float (j : json) : outcome Q :=
  match j with
  | JNum q => Ok q
  | JBool b => Ok (if b then 1 else 0)%Q
  | JStr s => match parse_decimal s with Some q => Ok q | None => Raise ValueError end
  | _ => Raise TypeError
  end.

(** Lines 102-116, after the inference call. *)
Definition _detect_with_ai (r : response) : outcome (PromptCategory * Q) :=
  match r with
  | RFail => Raise InferenceError
  | RText s =>
      match json_loads s with
      | None => Raise JSONDecodeError
      | Some result =>
          let? cj := py_getitem result "category" in
          let? category := PromptCategory_of cj in
          let? fj := py_getitem result "confidence" in
          let? confidence := py_float fj in
          Ok (category, confidence)
      end
  end.

(** Lines 57-76: any exception of the AI path falls back to keywords. *)
Definition detect_category (r : response) (prompt : string) : PromptCategory * Q :=
  match _detect_with_ai r with
  | Ok (category, confidence) =>
      if Qle_bool (7 # 10) confidence then (category, confidence)
      else _detect_with_keywords prompt
  | Raise _ => _detect_with_keywords prompt
  end.

End Router.

(* ------------------------------------------------------------------ *)
(** ** [ParameterValidator] ([agents/parameter_validator.py]) *)

Section Validator.
Variable json_loads : string -> option json.

(** [MissingParameter(name=p["name"], question=p["question"],
    importance=p.get("importance", "recommended"))] *)
Definition missing_of_json (p : json) : outcome MissingParameter.t :=
  let? n := py_getitem p "name" in
  let? q := py_getitem p "question" in
  let? i := py_get p "importance" (JStr "recommended") in
  MissingParameter.of_kwargs (JObj [("name", n); ("question", q); ("importance", i)]).

(** The body of the [try] block after [json.loads]; the debug log line
    evaluates [f['name']] for every [f] in [found]. *)
Definition validate_of_json (result : json) : outcome (list MissingParameter.t) :=
  let? mj := py_get result "missing" (JArr []) in
  let? ml := py_iter mj in
  let? missing := omap missing_of_json ml in
  let? fj := py_get result "found" (JArr []) in
  let? fl := py_iter fj in
  let? _ := omap (fun f => py_getitem f "name") fl in
  Ok missing.

(** [validate]: every exception gives the empty list. *)
Definition validate_of_response (r : response) : list MissingParameter.t :=
  match r with
  | RFail => []
  | RText s =>
      match json_loads s with
      | None => []
      | Some result =>
          match validate_of_json result with
          | Ok m => m
          | Raise _ => []
          end
      end
  end.

End Validator.

(** [sorted(xs, key=key)]: a stable insertion sort. *)
Fixpoint insert_by_key {A} (key : A -> Z) (x : A) (l : list A) : list A :=
  match l with
  | [] => [x]
  | y :: t => if (key x <=? key y)%Z then x :: y :: t else y :: insert_by_key key x t
  end.

Definition py_sorted {A} (key : A -> Z) (l : list A) : list A :=
  fold_right (insert_by_key key) [] l.

(** [l[:k]] *)
Definition py_slice_to {A} (l : list A) (k : Z) : list A :=
  if (0 <=? k)%Z then firstn (Z.to_nat k) l
  else firstn (Z.to_nat (Z.of_nat (length l) + k)) l.

Definition importance_key (p : MissingParameter.t) : Z :=
  if String.eqb (MissingParameter.importance p) "required" then 0 else 1.

(** [sorted_params[:max_questions]] *)
Definition ranked_params (missing_params : list MissingParameter.t) (max_questions : Z)
  : list MissingParameter.t :=
  py_slice_to (py_sorted importance_key missing_params) max_questions.

Definition question_line (p : MissingParameter.t) : string :=
  (if String.eqb (MissingParameter.importance p) "required" then "❗" else "💭")
  ++ " " ++ MissingParameter.question p.

Definition get_questions_for_missing (missing_params : list MissingParameter.t)
           (max_questions : Z) : list string :=
  map question_line (ranked_params missing_params max_questions).

(* ------------------------------------------------------------------ *)
(** ** Text clean-up of [PromptRefiner] ([agents/refiner.py]) *)

(** [str.strip()] and [str.strip('`')]; the blanks are the ASCII ones. *)
Definition is_blank (c : ascii) : bool :=
  existsb (Ascii.eqb c) [" "%char; "009"%char; "010"%char; "011"%char; "012"%char; "013"%char].

Fixpoint drop_while (p : ascii -> bool) (l : list ascii) : list ascii :=
  match l with
  | [] => []
  | c :: t => if p c then drop_while p t else l
  end.

Definition strip_by (p : ascii -> bool) (s : string) : string :=
  string_of_list_ascii
    (rev (drop_while p (rev (drop_while p (list_ascii_of_string s))))).

Definition py_strip (s : string) : string := strip_by is_blank s.

(** Lines 103-110. *)
Definition clean_refined (text : string) : string :=
  let improved := py_strip text in
  let improved := py_strip (strip_by (Ascii.eqb "`"%char) improved) in
  if prefixb ("text" ++ String "010"%char EmptyString) improved
  then substring 5 (String.length improved - 5) improved
  else improved.

(** The fallback sentence of [generate_explanation]. *)
Definition explanation_fallback : string :=
  "הפרומפט שופר על ידי הוספת פרטים חסרים והבהרת המטרה.".

(* ------------------------------------------------------------------ *)
(** ** Calls to the external services, as a trace *)

(** The structured instruction of each call (its wording is opaque). *)
Inductive request : Type :=
| ReqClassify (prompt : string)
| ReqCritique (prompt : string) (category : option PromptCategory)
| ReqValidate (prompt : string) (category : PromptCategory)
| ReqRefine (original_prompt : string) (category : PromptCategory)
            (critique : CritiqueResult.t) (user_answers : list (string * string))
| ReqExplain (original_prompt improved_prompt : string)
             (weaknesses : list Weakness.t).

Inductive event : Type :=
| EInfer (q : request) (r : response)
| ESave (h : PromptHistory.t) (result : outcome unit).

(** A computation reads and extends the trace, and may raise. *)
Definition M (A : Type) : Type := list event -> outcome A * list event.

Definition ret {A} (a : A) : M A := fun tr => (Ok a, tr).

Definition bind {A B} (m : M A) (f : A -> M B) : M B :=
  fun tr => match m tr with
            | (Ok a, tr') => f a tr'
            | (Raise e, tr') => (Raise e, tr')
            end.

Definition lift {A} (o : outcome A) : M A := fun tr => (o, tr).

Notation "x <- m ;; k" := (bind m (fun x => k))
  (at level 61, m at next level, right associativity).
Notation "' p <- m ;; k" := (bind m (fun x => match x with p => k end))
  (at level 61, p pattern, m at next level, right associativity).

Module Analysis.
(** The dictionary returned by [analyze_prompt] (its two display strings,
    [category_description] and [formatted_critique], are left out). *)
Record t := mk {
  original_prompt : string;
  category : PromptCategory;
  confidence : Q;
  critique : CritiqueResult.t;
  questions : list string
}.
End Analysis.

Section Pipeline.
Variable json_loads : string -> option json.
Variable lower : string -> string.
(** The inference service: its answer to the [n]-th call of the trace. *)
Variable infer : nat -> request -> response.
(** The database: the outcome of [save_prompt_history] at the [n]-th call. *)
Variable db_save : nat -> PromptHistory.t -> outcome unit.
(** [config.MAX_ITERATIONS] *)
Variable MAX_ITERATIONS : Z.

Definition call (q : request) : M response :=
  fun tr => let r := infer (length tr) q in (Ok r, (tr ++ [EInfer q r])%list).

(** [ShadowCritic.critique] *)
Definition critique (prompt : string) (category : option PromptCategory)
  : M CritiqueResult.t :=
  r <- call (ReqCritique prompt category);;
  lift (critique_of_response json_loads r).

(** [PromptRefiner.refine]: an inference failure is re-raised. *)
Definition refine (original_prompt : string) (category : PromptCategory)
           (c : CritiqueResult.t) (user_answers : list (string * string)) : M string :=
  r <- call (ReqRefine original_prompt category c user_answers);;
  match r with
  | RFail => lift (Raise InferenceError)
  | RText s => ret (clean_refined s)
  end.

(** [PromptRefiner.generate_explanation] *)
Definition generate_explanation (original_prompt improved_prompt : string)
           (weaknesses : list Weakness.t) : M string :=
  r <- call (ReqExplain original_prompt improved_prompt weaknesses);;
  match r with
  | RFail => ret explanation_fallback
  | RText s => ret (py_strip s)
  end.

(** The [for iteration in range(max_iterations)] loop of [refine_iterative];
    [fuel] is the number of iterations left. *)
Fixpoint refine_loop (category : PromptCategory) (max_iterations target_score : Z)
         (fuel : nat) (iteration : Z) (current_prompt : string)
         (critiques_history : list CritiqueResult.t)
  : M (string * Z * list CritiqueResult.t) :=
  match fuel with
  | O => ret (current_prompt, max_iterations, critiques_history)
  | S fuel' =>
      c <- critique current_prompt (Some category);;
      let history := (critiques_history ++ [c])%list in
      if (target_score <=? CritiqueResult.overall_score c)%Z
         || CritiqueResult.is_ready c
      then ret (current_prompt, iteration + 1, history)
      else
        next <- refine current_prompt category c [];;
        refine_loop category max_iterations target_score fuel' (iteration + 1)
                    next history
  end.

(** [PromptRefiner.refine_iterative] *)
Definition refine_iterative (original_prompt : string) (category : PromptCategory)
           (max_iterations target_score : Z) : M (string * Z * list CritiqueResult.t) :=
  refine_loop category max_iterations target_score (Z.to_nat max_iterations) 0
              original_prompt [].

(** [PromptEnhancerOrchestrator.analyze_prompt] *)
Definition analyze_prompt (prompt user_id : string) : M Analysis.t :=
  r <- call (ReqClassify prompt);;
  let (category, confidence) := detect_category lower json_loads r prompt in
  c <- critique prompt (Some category);;
  rv <- call (ReqValidate prompt category);;
  let missing_params := validate_of_response json_loads rv in
  let c' := CritiqueResult.set_missing_params c missing_params in
  let questions := get_questions_for_missing missing_params 3 in
  ret (Analysis.mk prompt category confidence c' questions).

(** [PromptEnhancerOrchestrator._save_to_db]: every exception is logged and
    dropped. *)
Definition _save_to_db (user_id original improved : string) (category : PromptCategory)
           (c : CritiqueResult.t) (score_before score_after iterations : Z) : M unit :=
  fun tr =>
    let history := PromptHistory.mk user_id original improved category
                     (CritiqueResult.weaknesses c) score_before score_after iterations in
    let result := db_save (length tr) history in
    let tr' := (tr ++ [ESave history result])%list in
    match result with
    | Ok _ => (Ok tt, tr')
    | Raise _ => (Ok tt, tr')
    end.

Definition last_opt {A} (l : list A) : option A :=
  match rev l with [] => None | x :: _ => Some x end.

(** [PromptEnhancerOrchestrator.refine_prompt] *)
Definition refine_prompt (prompt user_id : string)
           (user_answers : option (list (string * string))) (use_iterations : bool)
           (max_iterations : option Z) : M RefinementResult.t :=
  let max_iterations := match max_iterations with
                        | None => MAX_ITERATIONS
                        | Some m => m
                        end in
  analysis <- analyze_prompt prompt user_id;;
  let category := Analysis.category analysis in
  let initial_critique := Analysis.critique analysis in
  let score_before := CritiqueResult.overall_score initial_critique in
  '(improved_prompt, iterations_used, final_critique) <-
    (if use_iterations && (1 <? max_iterations)%Z then
       '(improved, n, critiques) <-
         refine_iterative prompt category max_iterations 8;;
       ret (improved, n, match last_opt critiques with
                         | Some c => c
                         | None => initial_critique
                         end)
     else
       improved <- refine prompt category initial_critique
                     (match user_answers with Some a => a | None => [] end);;
       final <- critique improved (Some category);;
       ret (improved, 1%Z, final));;
  let score_after := CritiqueResult.overall_score final_critique in
  explanation <- generate_explanation prompt improved_prompt
                   (CritiqueResult.weaknesses initial_critique);;
  _ <- _save_to_db user_id prompt improved_prompt category initial_critique
         score_before score_after iterations_used;;
  ret (RefinementResult.mk prompt improved_prompt category final_critique
         iterations_used explanation (score_after - score_before)).

End Pipeline.

(* ------------------------------------------------------------------ *)
(** ** Observations on traces *)

Section Observe.
Variable json_loads : string -> option json.

(** The outcomes of the critique calls of a trace, in order. *)
Fixpoint crit_outcomes (evs : list event) : list (outcome CritiqueResult.t) :=
  match evs with
  | [] => []
  | EInfer (ReqCritique _ _) r :: t => critique_of_response json_loads r :: crit_outcomes t
  | _ :: t => crit_outcomes t
  end.

(** The rewrite ([PromptRefiner.refine]) calls of a trace. *)
Definition is_refine (e : event) : bool :=
  match e with EInfer (ReqRefine _ _ _ _) _ => true | _ => false end.

Definition count_refines (evs : list event) : nat := length (filter is_refine evs).

(** The shape of the calls of the convergence loop started on [cur]: each
    critique is of the current text; a rewrite follows a critique, takes the
    critiqued text and that critique; the next critique is of the rewritten
    text. *)
Fixpoint chained (category : PromptCategory) (cur : string) (evs : list event) : Prop :=
  match evs with
  | [] => True
  | EInfer (ReqCritique t ocat) r :: rest =>
      t = cur /\ ocat = Some category /\
      match rest with
      | [] => True
      | EInfer (ReqRefine b cat' c a) r2 :: rest' =>
          b = cur /\ cat' = category /\ critique_of_response json_loads r = Ok c /\
          a = [] /\
          match r2 with
          | RText s => chained category (clean_refined s) rest'
          | RFail => rest' = []
          end
      | _ => False
      end
  | _ => False
  end.

End Observe.

(** A computation that only appends to the trace. *)
Definition extends {A} (m : M A) : Prop :=
  forall tr, exists evs, snd (m tr) = (tr ++ evs)%list.

(** Claim-side reading of the keyword fallback: count the matched keywords
    of every category of the table; no match gives [(GENERAL, 0.3)];
    otherwise the first category of the table whose count is the largest,
    with confidence [min(0.9, 0.3 + 0.15 * count)]. *)
Definition spec_keyword_classify (lower : string -> string) (text : string)
  : PromptCategory * Q :=
  let counts := map (fun ck => (fst ck, kw_score (lower text) (snd ck))) keyword_hints in
  let m := fold_right (fun p acc => Z.max (snd p) acc) 0 counts in
  if (m =? 0)%Z then (GENERAL, 3 # 10)
  else match find (fun p => (snd p =? m)%Z) counts with
       | Some (c, _) => (c, Qmin (9 # 10) ((3 # 10) + inject_Z m * (15 # 100))%Q)
       | None => (GENERAL, 3 # 10)
       end.

Definition is_required (p : MissingParameter.t) : bool :=
  String.eqb (MissingParameter.importance p) "required".

(* ------------------------------------------------------------------ *)
(** ** Concrete services for the examples *)

(** [json.loads] on a handful of answers. *)
Definition demo_loads (s : string) : option json :=
  if String.eqb s "score4" then Some (JObj [("overall_score", JNum 4)])
  else if String.eqb s "score9" then Some (JObj [("overall_score", JNum 9)])
  else if String.eqb s "[]" then Some (JArr [])
  else if String.eqb s "gaps" then
    Some (JObj [("overall_score", JNum 6);
                ("missing_params",
                  JArr [JObj [("name", JStr "tone"); ("question", JStr "which tone?");
                              ("importance", JStr "required")]])])
  else if String.eqb s "ai15" then
    Some (JObj [("category", JStr "code"); ("confidence", JNum (3 # 2))])
  else None.

(** A service whose critiques all score [score] (an answer of [demo_loads]),
    and whose rewrites prefix the text with ["better "]. *)
Definition demo_infer (score : string) (n : nat) (q : request) : response :=
  match q with
  | ReqCritique _ _ => RText score
  | ReqRefine b _ _ _ => RText ("better " ++ b)
  | _ => RFail
  end.

Definition crit_with_score (s : Z) : CritiqueResult.t := CritiqueResult.mk [] [] [] s false.

Definition demo_gap : MissingParameter.t := MissingParameter.mk "tone" "which tone?" "required".

(** A validation answer with two missing parameters. *)
Definition gaps_loads (s : string) : option json :=
  if String.eqb s "v" then
    Some (JObj [("missing",
                 JArr [JObj [("name", JStr "tone"); ("question", JStr "which tone?")];
                       JObj [("name", JStr "len"); ("question", JStr "how long?");
                             ("importance", JStr "required")]])])
  else demo_loads s.

(** [demo_infer "score4"], with the validation answered by ["v"]. *)
Definition gaps_infer (n : nat) (q : request) : response :=
  match q with
  | ReqValidate _ _ => RText "v"
  | _ => demo_infer "score4" n q
  end.

(** A validation answer whose second missing parameter has no question. *)
Definition bad_loads (s : string) : option json :=
  Some (JObj [("missing",
               JArr [JObj [("name", JStr "tone"); ("question", JStr "which tone?")];
                     JObj [("name", JStr "len")]])]).

(* ------------------------------------------------------------------ *)
(** ** Display strings ([ShadowCritic.format_critique_hebrew],
    [CategoryRouter.get_category_description]) *)

Definition nl : string := String (ascii_of_nat 10) EmptyString.

(** [sep.join(l)] *)
Fixpoint py_join (sep : string) (l : list string) : string :=
  match l with
  | [] => EmptyString
  | x :: t =>
      match t with
      | [] => x
      | _ :: _ => x ++ sep ++ py_join sep t
      end
  end.

(** [str(n)] of an [int] (as an f-string prints it). *)
Definition py_str_int (n : Z) : string :=
  DecimalString.NilZero.string_of_int (Z.to_int n).

(** [enumerate(l, i)] *)
Fixpoint enumerate {A} (i : Z) (l : list A) : list (Z * A) :=
  match l with
  | [] => []
  | x :: t => (i, x) :: enumerate (i + 1) t
  end.

(** [CategoryRouter.get_category_description]: the dictionary has all seven
    members, so its default is never used. *)
Definition get_category_description (category : PromptCategory) : string :=
  match category with
  | CODE => "💻 קוד ותכנות"
  | IMAGE_GENERATION => "🎨 יצירת תמונות"
  | CREATIVE => "✍️ כתיבה יצירתית"
  | ANALYSIS => "📊 ניתוח ומחקר"
  | BUSINESS => "💼 עסקים ואסטרטגיה"
  | EDUCATION => "📚 חינוך ולימוד"
  | GENERAL => "🌐 כללי"
  end.

Definition score_emoji (s : Z) : string :=
  if (7 <=? s)%Z then "🟢" else if (5 <=? s)%Z then "🟡" else "🔴".

Definition severity_icon (severity : string) : string :=
  if String.eqb severity "high" then "🔴"
  else if String.eqb severity "medium" then "🟡" else "⚪".

Definition technique_icons : list (string * string) :=
  [("role_playing", "🎭"); ("chain_of_thought", "🔗"); ("few_shot", "📝");
   ("constraints", "🎯"); ("structure", "📐"); ("creativity", "💡")].

(** [technique_icons.get(tip.technique, "💡")] *)
Definition technique_icon (technique : string) : string :=
  match find (fun kv => String.eqb (fst kv) technique) technique_icons with
  | Some (_, icon) => icon
  | None => "💡"
  end.

Definition impact_stars (impact : string) : string :=
  if String.eqb impact "high" then "⭐⭐⭐"
  else if String.eqb impact "medium" then "⭐⭐" else "⭐".

Definition weakness_lines (iw : Z * Weakness.t) : list string :=
  let (i, w) := iw in
  [py_str_int i ++ ". " ++ severity_icon (Weakness.severity w) ++ " **"
     ++ Weakness.type w ++ "**";
   "   " ++ Weakness.description w;
   "   💡 *" ++ Weakness.suggestion w ++ "*" ++ nl].

(** [if tip.example:] is false for [None] and for the empty string. *)
Definition tip_lines (it : Z * ProTip.t) : list string :=
  let (i, tip) := it in
  [py_str_int i ++ ". " ++ technique_icon (ProTip.technique tip) ++ " **"
     ++ ProTip.title tip ++ "** " ++ impact_stars (ProTip.impact tip);
   "   " ++ ProTip.suggestion tip;
   match ProTip.example tip with
   | Some e =>
       if String.eqb e EmptyString then EmptyString
       else "   📌 _דוגמה: " ++ dquote ++ e ++ dquote ++ "_" ++ nl
   | None => EmptyString
   end].

(** The line of one missing parameter. *)
Definition missing_line (p : MissingParameter.t) : string :=
  (if String.eqb (MissingParameter.importance p) "required" then "❗" else "💭")
  ++ " " ++ MissingParameter.question p.

(** The list [lines] that [format_critique_hebrew] builds. *)
Definition format_lines (c : CritiqueResult.t) : list string :=
  let s := CritiqueResult.overall_score c in
  [score_emoji s ++ " **ציון כללי: " ++ py_str_int s ++ "/10**" ++ nl;
   if CritiqueResult.is_ready c then "✅ הפרומפט מוכן לשימוש!" ++ nl
   else "⚠️ מומלץ לשפר את הפרומפט" ++ nl]
  ++ match CritiqueResult.weaknesses c with
     | [] => []
     | ws => ("**🔍 נקודות לתיקון:**" ++ nl)
               :: concat (map weakness_lines (enumerate 1 ws))
     end
  ++ match CritiqueResult.pro_tips c with
     | [] => []
     | tips => ("**🚀 רעיונות לשדרוג הפרומפט:**" ++ nl)
                 :: concat (map tip_lines (enumerate 1 tips))
     end
  ++ match CritiqueResult.missing_params c with
     | [] => []
     | ps => ("**❓ שאלות להשלמה:**" ++ nl) :: map missing_line ps
     end.

(** [ShadowCritic.format_critique_hebrew] *)
Definition format_critique_hebrew (c : CritiqueResult.t) : string :=
  py_join nl (format_lines c).

(** [PromptEnhancerOrchestrator.quick_critique] *)
Definition quick_critique (json_loads : string -> option json) (lower : string -> string)
           (infer : nat -> request -> response) (prompt : string) : M string :=
  r <- call infer (ReqClassify prompt);;
  let (category, _) := detect_category lower json_loads r prompt in
  c <- critique json_loads infer prompt (Some category);;
  ret (format_critique_hebrew c).

(* ------------------------------------------------------------------ *)
(** ** The convergence loop *)

(** One iteration of [refine_iterative], unfolded. *)
Lemma refine_loop_S json_loads infer cat maxit target f it cur hist tr :
  refine_loop json_loads infer cat maxit target (S f) it cur hist tr =
  let r := infer (length tr) (ReqCritique cur (Some cat)) in
  let tr1 := (tr ++ [EInfer (ReqCritique cur (Some cat)) r])%list in
  match critique_of_response json_loads r with
  | Raise e => (Raise e, tr1)
  | Ok c =>
      if (target <=? CritiqueResult.overall_score c)%Z || CritiqueResult.is_ready c
      then (Ok (cur, it + 1, (hist ++ [c])%list), tr1)
      else
        let r2 := infer (length tr1) (ReqRefine cur cat c []) in
        let tr2 := (tr1 ++ [EInfer (ReqRefine cur cat c []) r2])%list in
        match r2 with
        | RFail => (Raise InferenceError, tr2)
        | RText s => refine_loop json_loads infer cat maxit target f (it + 1)
                       (clean_refined s) (hist ++ [c])%list tr2
        end
  end.
Proof.
  cbn [refine_loop]. unfold critique, refine, call, lift, ret, bind.
  cbv beta iota zeta.
  destruct (critique_of_response json_loads _); [|reflexivity].
  destruct (_ || _); [reflexivity|].
  destruct (infer _ _); reflexivity.
Qed.

Lemma refine_loop_chained json_loads infer cat maxit target :
  forall f it cur hist tr, exists evs,
    snd (refine_loop json_loads infer cat maxit target f it cur hist tr) = (tr ++ evs)%list /\
    chained json_loads cat cur evs.
Proof.
  induction f as [|f IH]; intros it cur hist tr.
  - exists []. rewrite app_nil_r. split; [reflexivity | exact I].
  - rewrite refine_loop_S. cbv zeta.
    destruct (critique_of_response json_loads _) as [c|e] eqn:Hc.
    + destruct (_ || _).
      * eexists. split; [reflexivity|]. simpl. auto.
      * destruct (infer _ (ReqRefine cur cat c [])) as [|s] eqn:Hr.
        -- eexists. split; [simpl; rewrite <- app_assoc; reflexivity|].
           simpl. repeat split; auto.
        -- destruct (IH (it + 1) (clean_refined s) (hist ++ [c])%list
                       ((tr ++ [EInfer (ReqCritique cur (Some cat))
                                  (infer (length tr) (ReqCritique cur (Some cat)))])
                        ++ [EInfer (ReqRefine cur cat c []) (RText s)])%list)
             as [evs [H1 H2]].
           eexists. split.
           ++ rewrite H1, <- !app_assoc. reflexivity.
           ++ simpl. repeat split; auto.
    + eexists. split; [reflexivity|]. simpl. auto.
Qed.

Lemma last_opt_snoc {A} (l : list A) (x : A) : last_opt (l ++ [x])%list = Some x.
Proof. unfold last_opt. rewrite rev_unit. reflexivity. Qed.

(** If the [i]-th critique of a run reaches the target, the run stops right
    there: it returns the text that critique scored, with [i+1] iterations,
    after [i] rewrites. *)
Lemma refine_loop_stops_at json_loads infer cat maxit target :
  forall f it cur hist tr evs res i c,
    refine_loop json_loads infer cat maxit target f it cur hist tr = (res, (tr ++ evs)%list) ->
    nth_error (crit_outcomes json_loads evs) i = Some (Ok c) ->
    (target <= CritiqueResult.overall_score c)%Z ->
    exists txt hs pre r,
      res = Ok (txt, it + Z.of_nat (S i), (hist ++ hs ++ [c])%list) /\ length hs = i /\
      evs = (pre ++ [EInfer (ReqCritique txt (Some cat)) r])%list /\
      critique_of_response json_loads r = Ok c /\ count_refines evs = i.
Proof.
  induction f as [|f IH]; intros it cur hist tr evs res i c H Hi Hs.
  - simpl in H. unfold ret in H. injection H as <- E.
    rewrite <- (app_nil_r tr) in E at 1. apply app_inv_head in E. subst evs.
    destruct i; discriminate Hi.
  - rewrite refine_loop_S in H. cbv zeta in H.
    destruct (critique_of_response json_loads _) as [c0|e] eqn:Hc.
    + destruct ((target <=? CritiqueResult.overall_score c0)%Z
                || CritiqueResult.is_ready c0) eqn:Hconv.
      * injection H as <- E. apply app_inv_head in E. subst evs.
        simpl in Hi. rewrite Hc in Hi.
        destruct i as [|i]; [|destruct i; discriminate Hi].
        injection Hi as <-.
        exists cur, [], [], (infer (length tr) (ReqCritique cur (Some cat))).
        repeat split; auto.
      * apply orb_false_iff in Hconv as [Hlt _].
        destruct (infer _ (ReqRefine cur cat c0 [])) as [|s] eqn:Hr.
        -- injection H as <- E. rewrite <- app_assoc in E. apply app_inv_head in E.
           subst evs. simpl in Hi. rewrite Hc in Hi.
           destruct i as [|i]; [|destruct i; discriminate Hi].
           injection Hi as <-. apply Z.leb_nle in Hlt. lia.
        -- set (tr2 := ((tr ++ [EInfer (ReqCritique cur (Some cat))
                                  (infer (length tr) (ReqCritique cur (Some cat)))])
                        ++ [EInfer (ReqRefine cur cat c0 []) (RText s)])%list) in *.
           destruct (refine_loop_chained json_loads infer cat maxit target f (it + 1)
                       (clean_refined s) (hist ++ [c0])%list tr2) as [evs' [E' _]].
           rewrite H in E'. simpl in E'. subst tr2.
           rewrite <- !app_assoc in E'. apply app_inv_head in E'. subst evs.
           simpl in Hi. rewrite Hc in Hi.
           destruct i as [|i].
           ++ injection Hi as <-. apply Z.leb_nle in Hlt. lia.
           ++ simpl in Hi. rewrite !app_assoc in H.
              destruct (IH (it + 1) (clean_refined s) (hist ++ [c0])%list _ evs' res i c
                          H Hi Hs) as (txt & hs & pre & r & E1 & E2 & E3 & E4 & E5).
              exists txt, (c0 :: hs),
                ([EInfer (ReqCritique cur (Some cat))
                    (infer (length tr) (ReqCritique cur (Some cat)));
                  EInfer (ReqRefine cur cat c0 []) (RText s)] ++ pre)%list, r.
              rewrite E1, E3. repeat split.
              ** f_equal. f_equal; [f_equal; lia|]. rewrite <- !app_assoc. reflexivity.
              ** simpl. rewrite E2. reflexivity.
              ** assumption.
              ** unfold count_refines in *. rewrite E3 in E5. simpl. now rewrite E5.
    + injection H as <- E. apply app_inv_head in E. subst evs.
      simpl in Hi. rewrite Hc in Hi. destruct i; [discriminate Hi|destruct i; discriminate Hi].
Qed.

(** A run of [f] iterations makes at most [f] critique and [f] rewrite
    calls. *)
Lemma refine_loop_calls_bounded json_loads infer cat maxit target :
  forall f it cur hist tr, exists evs,
    snd (refine_loop json_loads infer cat maxit target f it cur hist tr) = (tr ++ evs)%list /\
    (length (crit_outcomes json_loads evs) <= f)%nat /\ (count_refines evs <= f)%nat.
Proof.
  unfold count_refines.
  induction f as [|f IH]; intros it cur hist tr.
  - exists []. rewrite app_nil_r. simpl. repeat split; lia.
  - rewrite refine_loop_S. cbv zeta.
    destruct (critique_of_response json_loads _) as [c|e] eqn:Hc.
    + destruct (_ || _).
      * eexists. split; [reflexivity|]. simpl. lia.
      * destruct (infer _ (ReqRefine cur cat c [])) as [|s] eqn:Hr.
        -- eexists. split; [simpl; rewrite <- app_assoc; reflexivity|].
           simpl. lia.
        -- destruct (IH (it + 1) (clean_refined s) (hist ++ [c])%list
                       ((tr ++ [EInfer (ReqCritique cur (Some cat))
                                  (infer (length tr) (ReqCritique cur (Some cat)))])
                        ++ [EInfer (ReqRefine cur cat c []) (RText s)])%list)
             as [evs [H1 [H2 H3]]].
           eexists. split.
           ++ rewrite H1, <- !app_assoc. reflexivity.
           ++ simpl. lia.
    + eexists. split; [reflexivity|]. simpl. lia.
Qed.

(** The iteration count a run returns: the budget [max_iterations] when it
    runs out, otherwise the number of the converging iteration. *)
Lemma refine_loop_iterations json_loads infer cat maxit target :
  forall f it cur hist tr txt n h tr',
    refine_loop json_loads infer cat maxit target f it cur hist tr = (Ok (txt, n, h), tr') ->
    n = maxit \/ (it < n <= it + Z.of_nat f)%Z.
Proof.
  induction f as [|f IH]; intros it cur hist tr txt n h tr' H.
  - simpl in H. unfold ret in H. injection H as _ <- _ _. left. reflexivity.
  - rewrite refine_loop_S in H. cbv zeta in H.
    destruct (critique_of_response json_loads _) as [c|e]; [|discriminate H].
    destruct (_ || _).
    + injection H as _ <- _ _. right. lia.
    + destruct (infer _ _) as [|s]; [discriminate H|].
      destruct (IH _ _ _ _ _ _ _ _ H) as [E|E]; [left; exact E|right; lia].
Qed.

(** A run that returns without its last critique reaching the target ended
    with that critique and a rewrite of the critiqued text, and returns the
    text of that rewrite; or it made no iteration at all. *)
Lemma refine_loop_exhausted json_loads infer cat maxit target :
  forall f it cur hist tr txt n h tr' c,
    refine_loop json_loads infer cat maxit target f it cur hist tr = (Ok (txt, n, h), tr') ->
    last_opt h = Some c ->
    (CritiqueResult.overall_score c < target)%Z -> CritiqueResult.is_ready c = false ->
    (tr' = tr /\ txt = cur /\ h = hist) \/
    exists pre b r s,
      tr' = (pre ++ [EInfer (ReqCritique b (Some cat)) r;
                     EInfer (ReqRefine b cat c []) (RText s)])%list /\
      critique_of_response json_loads r = Ok c /\ txt = clean_refined s.
Proof.
  induction f as [|f IH]; intros it cur hist tr txt n h tr' c H Hl Hs Hr.
  - simpl in H. unfold ret in H. injection H as <- _ <- <-. left. auto.
  - rewrite refine_loop_S in H. cbv zeta in H.
    destruct (critique_of_response json_loads _) as [c0|e] eqn:Hc; [|discriminate H].
    destruct ((target <=? CritiqueResult.overall_score c0)%Z
              || CritiqueResult.is_ready c0) eqn:Hconv.
    + injection H as _ _ <- _. rewrite last_opt_snoc in Hl. injection Hl as ->.
      rewrite Hr, orb_false_r in Hconv. apply Z.leb_le in Hconv. lia.
    + destruct (infer _ (ReqRefine cur cat c0 [])) as [|s] eqn:Eq; [discriminate H|].
      right.
      destruct (IH _ _ _ _ _ _ _ _ _ H Hl Hs Hr) as [(E1 & E2 & E3) | E].
      * subst. rewrite last_opt_snoc in Hl. injection Hl as ->.
        exists tr, cur, (infer (length tr) (ReqCritique cur (Some cat))), s.
        rewrite <- app_assoc. auto.
      * exact E.
Qed.

(** The history a run returns extends the one it was given by at least one
    critique, unless the budget was zero. *)
Lemma refine_loop_history json_loads infer cat maxit target :
  forall f it cur hist tr txt n h tr',
    refine_loop json_loads infer cat maxit target f it cur hist tr = (Ok (txt, n, h), tr') ->
    (f = O /\ h = hist) \/ exists h' c, h = (hist ++ h' ++ [c])%list.
Proof.
  induction f as [|f IH]; intros it cur hist tr txt n h tr' H.
  - simpl in H. unfold ret in H. injection H as _ _ <- _. left. auto.
  - right. rewrite refine_loop_S in H. cbv zeta in H.
    destruct (critique_of_response json_loads _) as [c|e]; [|discriminate H].
    destruct (_ || _).
    + injection H as _ _ <- _. exists [], c. reflexivity.
    + destruct (infer _ _) as [|s]; [discriminate H|].
      destruct (IH _ _ _ _ _ _ _ _ H) as [[_ E] | (h' & c' & E)]; subst h.
      * exists [], c. reflexivity.
      * exists (c :: h'), c'. rewrite <- app_assoc. reflexivity.
Qed.

(* ------------------------------------------------------------------ *)
(** ** The pipeline *)

(** Changing only the continuation's result changes only the result. *)
Lemma bind_fst_congr {A B} (m : M A) (f g : A -> M B) tr :
  (forall a tr', fst (f a tr') = fst (g a tr')) ->
  fst (bind m f tr) = fst (bind m g tr).
Proof.
  intros Hfg. unfold bind. destruct (m tr) as [[a|e] tr']; simpl; auto.
Qed.

(** [_save_to_db] never raises, whatever the database does. *)
Lemma save_to_db_ok db_save user_id original improved category c sb sa it tr :
  fst (_save_to_db db_save user_id original improved category c sb sa it tr) = Ok tt.
Proof.
  unfold _save_to_db. destruct (db_save _ _); reflexivity.
Qed.

(** [analyze_prompt], unfolded on a successful run. *)
Lemma analyze_prompt_ok json_loads lower infer prompt user_id tr a tr' :
  analyze_prompt json_loads lower infer prompt user_id tr = (Ok a, tr') ->
  exists rc rv c,
    tr' = (tr ++ [EInfer (ReqClassify prompt) (infer (length tr) (ReqClassify prompt));
                  EInfer (ReqCritique prompt (Some (Analysis.category a))) rc;
                  EInfer (ReqValidate prompt (Analysis.category a)) rv])%list /\
    critique_of_response json_loads rc = Ok c /\
    Analysis.critique a =
      CritiqueResult.set_missing_params c (validate_of_response json_loads rv) /\
    Analysis.questions a = get_questions_for_missing (validate_of_response json_loads rv) 3.
Proof.
  unfold analyze_prompt, critique, call, lift, ret, bind. cbv beta iota zeta.
  destruct (detect_category lower json_loads _ prompt) as [cat conf].
  destruct (critique_of_response json_loads _) as [c|e] eqn:Hc; [|discriminate].
  intros H. injection H as <- <-.
  do 3 eexists. split; [|split; [exact Hc| split; reflexivity]].
  simpl. rewrite <- !app_assoc. reflexivity.
Qed.

Lemma extends_ret {A} (a : A) : extends (ret a).
Proof. intro tr. exists []. rewrite app_nil_r. reflexivity. Qed.

Lemma extends_lift {A} (o : outcome A) : extends (lift o).
Proof. intro tr. exists []. rewrite app_nil_r. reflexivity. Qed.

Lemma extends_call infer q : extends (call infer q).
Proof. intro tr. eexists. reflexivity. Qed.

Lemma extends_bind {A B} (m : M A) (f : A -> M B) :
  extends m -> (forall a, extends (f a)) -> extends (bind m f).
Proof.
  intros Hm Hf tr. unfold bind.
  destruct (Hm tr) as [e1 E1]. destruct (m tr) as [[a|e] tr1]; simpl in E1; subst tr1.
  - destruct (Hf a (tr ++ e1)%list) as [e2 E2]. exists (e1 ++ e2)%list.
    rewrite E2, app_assoc. reflexivity.
  - exists e1. reflexivity.
Qed.

(** The trace of [bind m f] extends the trace of [m]. *)
Lemma bind_snd_extends {A B} (m : M A) (f : A -> M B) tr :
  (forall a, extends (f a)) -> exists evs, snd (bind m f tr) = (snd (m tr) ++ evs)%list.
Proof.
  intros Hf. unfold bind. destruct (m tr) as [[a|e] tr1]; simpl.
  - apply Hf.
  - exists []. rewrite app_nil_r. reflexivity.
Qed.

Lemma extends_critique json_loads infer prompt category :
  extends (critique json_loads infer prompt category).
Proof.
  apply extends_bind; [apply extends_call | intros; apply extends_lift].
Qed.

Lemma extends_refine infer original category c answers :
  extends (refine infer original category c answers).
Proof.
  apply extends_bind; [apply extends_call | intros [|s]; [apply extends_lift | apply extends_ret]].
Qed.

Lemma extends_explain infer original improved ws :
  extends (generate_explanation infer original improved ws).
Proof.
  apply extends_bind; [apply extends_call | intros [|s]; apply extends_ret].
Qed.

Lemma extends_save db_save user_id original improved category c sb sa it :
  extends (_save_to_db db_save user_id original improved category c sb sa it).
Proof.
  intro tr. unfold _save_to_db. destruct (db_save _ _); eexists; reflexivity.
Qed.

Create HintDb extends.
#[local] Hint Resolve extends_ret extends_lift extends_call extends_critique
  extends_refine extends_explain extends_save : extends.

(** What [refine_prompt] does after its rewrite step only appends. *)
Lemma extends_refine_tail infer db_save prompt user_id category
      (initial_critique : CritiqueResult.t) :
  forall x : string * Z * CritiqueResult.t,
    extends (let '(improved_prompt, iterations_used, final_critique) := x in
             let score_after := CritiqueResult.overall_score final_critique in
             explanation <- generate_explanation infer prompt improved_prompt
                              (CritiqueResult.weaknesses initial_critique);;
             _ <- _save_to_db db_save user_id prompt improved_prompt category
                    initial_critique (CritiqueResult.overall_score initial_critique)
                    score_after iterations_used;;
             ret (RefinementResult.mk prompt improved_prompt category final_critique
                    iterations_used explanation
                    (score_after - CritiqueResult.overall_score initial_critique))).
Proof.
  intros [[im n] fc]. cbv zeta.
  apply extends_bind; [auto with extends | intro ex].
  apply extends_bind; [auto with extends | intro u; auto with extends].
Qed.

(** Outside the iterative mode, [refine_prompt] calls the rewrite right after
    the analysis, whatever the analysis scored. *)
Lemma refine_prompt_single_rewrite json_loads lower infer db_save MAXIT prompt user_id
      answers use m tr a tr1 :
  (use = false \/ (m <= 1)%Z) ->
  analyze_prompt json_loads lower infer prompt user_id tr = (Ok a, tr1) ->
  exists r post,
    snd (refine_prompt json_loads lower infer db_save MAXIT prompt user_id answers use
           (Some m) tr) =
    (tr1 ++ EInfer (ReqRefine prompt (Analysis.category a) (Analysis.critique a)
                      (match answers with Some l => l | None => [] end)) r :: post)%list.
Proof.
  intros Hc Ha. unfold refine_prompt. cbv zeta. unfold bind at 1. rewrite Ha.
  cbv beta iota.
  replace (use && (1 <? m)%Z) with false
    by (destruct Hc as [->|Hm]; [reflexivity|];
        rewrite andb_comm; replace (1 <? m)%Z with false by lia; reflexivity).
  match goal with
  | |- context [snd (bind ?m ?f tr1)] => destruct (bind_snd_extends m f tr1) as [e1 E1]
  end.
  { apply extends_refine_tail. }
  rewrite E1.
  match goal with
  | |- context [snd (bind ?m ?f tr1)] => destruct (bind_snd_extends m f tr1) as [e2 E2]
  end.
  { intro x. apply extends_bind; [auto with extends | intro; auto with extends]. }
  rewrite E2. unfold refine, call, bind. cbv beta iota zeta.
  destruct (infer _ _) as [|s]; simpl; do 2 eexists; rewrite <- !app_assoc; reflexivity.
Qed.

(** [refine_prompt] in the iterative mode, unfolded on a successful run. *)
Lemma refine_prompt_iterative_ok json_loads lower infer db_save MAXIT prompt user_id
      answers m tr rr tr' :
  (1 < m)%Z ->
  refine_prompt json_loads lower infer db_save MAXIT prompt user_id answers true
    (Some m) tr = (Ok rr, tr') ->
  exists a tr1 txt n h tr2 c post,
    analyze_prompt json_loads lower infer prompt user_id tr = (Ok a, tr1) /\
    refine_iterative json_loads infer prompt (Analysis.category a) m 8 tr1
      = (Ok (txt, n, h), tr2) /\
    last_opt h = Some c /\
    RefinementResult.original_prompt rr = prompt /\
    RefinementResult.improved_prompt rr = txt /\
    RefinementResult.category rr = Analysis.category a /\
    RefinementResult.critique rr = c /\
    RefinementResult.iterations_used rr = n /\
    RefinementResult.improvement_delta rr =
      (CritiqueResult.overall_score c
       - CritiqueResult.overall_score (Analysis.critique a))%Z /\
    tr' = (tr2 ++ post)%list /\ crit_outcomes json_loads post = [].
Proof.
  intros Hm H. unfold refine_prompt in H. cbv zeta in H. unfold bind at 1 in H.
  destruct (analyze_prompt json_loads lower infer prompt user_id tr)
    as [[a|e] tr1] eqn:Ha; [|discriminate H].
  cbv beta iota in H.
  replace (true && (1 <? m)%Z) with true in H by (symmetry; apply Z.ltb_lt; exact Hm).
  unfold bind at 1 in H. unfold bind at 1 in H.
  destruct (refine_iterative json_loads infer prompt (Analysis.category a) m 8 tr1)
    as [[[[txt n] h]|e] tr2] eqn:Hi; [|discriminate H].
  assert (Hh : exists c, last_opt h = Some c).
  { unfold refine_iterative in Hi.
    destruct (refine_loop_history _ _ _ _ _ _ _ _ _ _ _ _ _ _ Hi)
      as [[Hz _] | (h' & c & ->)]; [lia|].
    exists c. rewrite app_assoc. apply last_opt_snoc. }
  destruct Hh as [c Hc].
  unfold ret in H. cbv beta iota in H. rewrite Hc in H.
  unfold generate_explanation, call, bind, ret, _save_to_db in H.
  cbv beta iota zeta in H.
  destruct (infer _ (ReqExplain _ _ _)); destruct (db_save _ _);
    injection H as <- <-;
    do 8 eexists; (split; [reflexivity|]); (split; [exact Hi|]);
    (split; [exact Hc|]); repeat split; try rewrite <- app_assoc; reflexivity.
Qed.

(* ------------------------------------------------------------------ *)
(** ** The keyword fallback *)

Section FirstMax.
Context {A : Type}.

Let zmax (l : list (A * Z)) : Z := fold_right (fun p acc => Z.max (snd p) acc) 0 l.
Let pos (p : A * Z) : bool := (0 <? snd p)%Z.

Lemma zmax_nonneg l : (0 <= zmax l)%Z.
Proof. induction l as [|p l IH]; simpl; lia. Qed.

Lemma zmax_filter_pos l :
  Forall (fun p => 0 <= snd p)%Z l -> zmax (filter pos l) = zmax l.
Proof.
  induction l as [|p l IH]; intros Hl; [reflexivity|].
  inversion Hl as [|? ? Hp Ht]; subst. simpl. unfold pos at 1.
  destruct (0 <? snd p)%Z eqn:E; simpl; rewrite IH by exact Ht; [reflexivity|].
  apply Z.ltb_ge in E. pose proof (zmax_nonneg l). lia.
Qed.

Lemma find_filter_pos l M :
  (0 < M)%Z ->
  find (fun p => snd p =? M)%Z (filter pos l) = find (fun p => snd p =? M)%Z l.
Proof.
  intros HM. induction l as [|p l IH]; [reflexivity|].
  simpl. unfold pos at 1. destruct (0 <? snd p)%Z eqn:E; simpl.
  - destruct (snd p =? M)%Z; [reflexivity | exact IH].
  - apply Z.ltb_ge in E. replace (snd p =? M)%Z with false by lia. exact IH.
Qed.

Lemma filter_pos_nil l :
  Forall (fun p => 0 <= snd p)%Z l -> filter pos l = [] -> zmax l = 0%Z.
Proof.
  intros Hl Hf. rewrite <- zmax_filter_pos by exact Hl. rewrite Hf. reflexivity.
Qed.

(** The builtin [max] keeps the first element of largest key. *)
Lemma fold_max_step_first (t : list (A * Z)) :
  forall x, Forall (fun p => 0 <= snd p)%Z (x :: t) ->
  Some (fold_left max_step t x) = find (fun p => snd p =? zmax (x :: t))%Z (x :: t).
Proof.
  induction t as [|y t IH]; intros x Hl.
  - inversion Hl; subst. unfold zmax. simpl. rewrite Z.max_l by lia.
    rewrite Z.eqb_refl. reflexivity.
  - inversion Hl as [|? ? Hx Hyt]; subst. inversion Hyt as [|? ? Hy Ht]; subst.
    simpl fold_left. unfold max_step at 2.
    destruct (snd x <? snd y)%Z eqn:E.
    + apply Z.ltb_lt in E. rewrite IH by (constructor; assumption).
      cbn [find zmax fold_right]. fold (zmax t).
      replace (snd x =? Z.max (snd x) (Z.max (snd y) (zmax t)))%Z with false by lia.
      replace (Z.max (snd x) (Z.max (snd y) (zmax t))) with (Z.max (snd y) (zmax t))
        by lia.
      reflexivity.
    + apply Z.ltb_ge in E. rewrite IH by (constructor; assumption).
      cbn [find zmax fold_right]. fold (zmax t).
      replace (Z.max (snd x) (Z.max (snd y) (zmax t))) with (Z.max (snd x) (zmax t))
        by lia.
      destruct (snd x =? Z.max (snd x) (zmax t))%Z eqn:E2; [reflexivity|].
      replace (snd y =? Z.max (snd x) (zmax t))%Z with false by lia.
      reflexivity.
Qed.

(** [max] over the entries of positive key: [None] when there is none,
    otherwise the first entry of [l] whose key is the largest. *)
Lemma py_max_key_filter_pos (l : list (A * Z)) :
  Forall (fun p => 0 <= snd p)%Z l ->
  py_max_key (filter pos l) =
  if (zmax l =? 0)%Z then None else find (fun p => snd p =? zmax l)%Z l.
Proof.
  intros Hl. destruct (filter pos l) as [|x t] eqn:Ef.
  - rewrite (filter_pos_nil l Hl Ef). reflexivity.
  - assert (Hxt : Forall (fun p => 0 <= snd p)%Z (x :: t)).
    { rewrite <- Ef. rewrite Forall_forall in Hl |- *. intros y Hy.
      apply filter_In in Hy as [Hy _]. apply Hl, Hy. }
    assert (Hx : (0 < snd x)%Z).
    { assert (Hin : In x (filter pos l)) by (rewrite Ef; left; reflexivity).
      apply filter_In in Hin as [_ Hin]. unfold pos in Hin. lia. }
    assert (HM : zmax (x :: t) = zmax l).
    { rewrite <- Ef. apply zmax_filter_pos. exact Hl. }
    assert (HMpos : (0 < zmax l)%Z).
    { rewrite <- HM. simpl. fold (zmax t). lia. }
    replace (zmax l =? 0)%Z with false by lia.
    simpl py_max_key. rewrite fold_max_step_first by exact Hxt.
    rewrite HM, <- Ef. apply find_filter_pos. exact HMpos.
Qed.

End FirstMax.

(** The dictionary the scoring loop builds. *)
Lemma keyword_scores_filter prompt_lower :
  keyword_scores prompt_lower =
  filter (fun p => 0 <? snd p)%Z
    (map (fun ck => (fst ck, kw_score prompt_lower (snd ck))) keyword_hints).
Proof.
  unfold keyword_scores.
  assert (G : forall (l : list (PromptCategory * list string)) acc,
    fold_left (fun scores ck =>
                 let score := kw_score prompt_lower (snd ck) in
                 if (0 <? score)%Z then (scores ++ [(fst ck, score)])%list else scores)
              l acc =
    (acc ++ filter (fun p => 0 <? snd p)%Z
                (map (fun ck => (fst ck, kw_score prompt_lower (snd ck))) l))%list).
  { induction l as [|ck l IH]; intros acc; simpl.
    - rewrite app_nil_r. reflexivity.
    - destruct (0 <? kw_score prompt_lower (snd ck))%Z; rewrite IH;
        [rewrite <- app_assoc; reflexivity | reflexivity]. }
  apply G.
Qed.

(* ------------------------------------------------------------------ *)
(** ** Ranking the missing parameters *)

Lemma importance_key_required p :
  importance_key p = if is_required p then 0%Z else 1%Z.
Proof. reflexivity. Qed.

Lemma insert_required x l :
  is_required x = true -> insert_by_key importance_key x l = x :: l.
Proof.
  intros Hx. destruct l as [|y l]; [reflexivity|]. simpl.
  rewrite (importance_key_required x), Hx.
  replace (0 <=? importance_key y)%Z with true
    by (rewrite importance_key_required; destruct (is_required y); reflexivity).
  reflexivity.
Qed.

Lemma insert_recommended x l0 l1 :
  is_required x = false ->
  Forall (fun y => is_required y = true) l0 ->
  Forall (fun y => is_required y = false) l1 ->
  insert_by_key importance_key x (l0 ++ l1) = (l0 ++ x :: l1)%list.
Proof.
  intros Hx H0 H1. induction H0 as [|y l0 Hy H0 IH]; simpl.
  - destruct l1 as [|z l1]; [reflexivity|]. simpl.
    inversion H1 as [|? ? Hz]; subst.
    rewrite !importance_key_required, Hx, Hz. reflexivity.
  - rewrite !importance_key_required, Hx, Hy. simpl. rewrite IH. reflexivity.
Qed.

(** [sorted(..., key=...)] on the importance key: the required entries, then
    the others, each group in its original order. *)
Lemma py_sorted_importance ps :
  py_sorted importance_key ps =
  (filter is_required ps ++ filter (fun p => negb (is_required p)) ps)%list.
Proof.
  induction ps as [|x t IH]; [reflexivity|].
  unfold py_sorted in *. simpl fold_right. rewrite IH. simpl.
  destruct (is_required x) eqn:Hx; simpl.
  - apply insert_required. exact Hx.
  - apply insert_recommended; [exact Hx | |].
    + apply Forall_forall. intros y Hy. apply filter_In in Hy. tauto.
    + apply Forall_forall. intros y Hy. apply filter_In in Hy as [_ Hy].
      destruct (is_required y); [discriminate Hy | reflexivity].
Qed.

(* ------------------------------------------------------------------ *)
(** ** The claims *)

(** C1 (amended): the rewrites of [refine_iterative] are chained, not
    anchored to the original text.  The first critique is of the original
    text; every rewrite takes the text critiqued just before it together
    with that critique (the original text on the first iteration, the
    previous rewrite's output afterwards); the next critique is of the
    rewrite's output. *)
Theorem refine_iterative_rewrites_current_text json_loads infer original category
        maxit target tr :
  exists evs,
    snd (refine_iterative json_loads infer original category maxit target tr)
      = (tr ++ evs)%list /\
    chained json_loads category original evs.
Proof. apply refine_loop_chained. Qed.

(** C1, counterexample: with every critique scoring 4, three iterations, the
    second rewrite is called on ["better orig"], the first rewrite's output,
    not on the original ["orig"]. *)
Lemma refine_iterative_second_rewrite_not_on_original :
  ~ (forall b cat c a r,
       In (EInfer (ReqRefine b cat c a) r)
          (snd (refine_iterative demo_loads (demo_infer "score4") "orig" CODE 3 8 [])) ->
       b = "orig").
Proof.
  intro H.
  assert (Hb : "better orig" = "orig").
  { apply (H "better orig" CODE (crit_with_score 4) [] (RText "better better orig")).
    vm_compute. do 3 right. left. reflexivity. }
  discriminate Hb.
Qed.

Ltac obind_ok H :=
  repeat match type of H with
         | obind ?m _ = Ok _ =>
             let E := fresh "E" in
             destruct m eqn:E; [cbn [obind] in H | discriminate H]
         end.

Lemma critique_of_json_range j c :
  critique_of_json j = Ok c -> (1 <= CritiqueResult.overall_score c <= 10)%Z.
Proof.
  intros Hc. unfold critique_of_json, CritiqueResult.build in Hc. obind_ok Hc.
  destruct ((1 <=? a10)%Z && (a10 <=? 10)%Z) eqn:Hr; [|discriminate Hc].
  obind_ok Hc. injection Hc as <-. simpl.
  apply andb_true_iff in Hr as [H1 H2]. apply Z.leb_le in H1, H2. lia.
Qed.

(** C2 (amended): [critique] degrades only on an answer that is not JSON at
    all ([json.loads] fails): it then returns one weakness of type
    ["unknown"], score 5, not ready.  A failed inference call raises.  An
    answer that is JSON but not of the expected shape raises as well: a
    JSON value that is not an object raises [AttributeError]; an
    [overall_score] that coerces to an integer outside [1, 10] raises, and
    the exception is the validation error whenever the three lists before
    it parse; whatever it returns has a score in [1, 10]. *)
Theorem critique_failure_paths json_loads r :
  (r = RFail -> critique_of_response json_loads r = Raise InferenceError) /\
  (forall s, r = RText s -> json_loads s = None ->
     critique_of_response json_loads r = Ok degraded_critique) /\
  (forall s j, r = RText s -> json_loads s = Some j ->
     critique_of_response json_loads r = critique_of_json j /\
     ((forall o, j <> JObj o) -> critique_of_response json_loads r = Raise AttributeError) /\
     (forall v n, py_get j "overall_score" (JNum 5) = Ok v -> pyd_int v = Ok n ->
        ~ (1 <= n <= 10)%Z -> exists e, critique_of_response json_loads r = Raise e) /\
     (forall wl ws ml mps tl tips v n,
        py_get j "weaknesses" (JArr []) = Ok (JArr wl) ->
        omap Weakness.of_kwargs wl = Ok ws ->
        py_get j "missing_params" (JArr []) = Ok (JArr ml) ->
        omap MissingParameter.of_kwargs ml = Ok mps ->
        py_get j "pro_tips" (JArr []) = Ok (JArr tl) ->
        omap ProTip.of_kwargs tl = Ok tips ->
        py_get j "overall_score" (JNum 5) = Ok v -> pyd_int v = Ok n ->
        ~ (1 <= n <= 10)%Z -> critique_of_response json_loads r = Raise ValidationError) /\
     (forall c, critique_of_response json_loads r = Ok c ->
        (1 <= CritiqueResult.overall_score c <= 10)%Z)) /\
  (exists w, CritiqueResult.weaknesses degraded_critique = [w] /\
             Weakness.type w = "unknown") /\
  CritiqueResult.overall_score degraded_critique = 5%Z /\
  CritiqueResult.is_ready degraded_critique = false.
Proof.
  split; [intros ->; reflexivity|].
  split; [intros s -> Hs; simpl; rewrite Hs; reflexivity|].
  split.
  - intros s j -> Hs. simpl. rewrite Hs. split; [reflexivity|]. split.
    + destruct j; try reflexivity. intros Hj. exfalso. apply (Hj kvs). reflexivity.
    + split; [|split].
      * intros v n Hv Hn Hr.
        destruct (critique_of_json j) as [c|e] eqn:Hc; [|exists e; reflexivity].
        exfalso. apply Hr.
        unfold critique_of_json, CritiqueResult.build in Hc. obind_ok Hc.
        injection Hv as ->.
        match goal with
        | E : pyd_int v = Ok ?b |- _ => assert (b = n) by congruence; subst b
        end.
        destruct ((1 <=? n)%Z && (n <=? 10)%Z) eqn:Hb; [|discriminate Hc].
        apply andb_true_iff in Hb as [H1 H2]. apply Z.leb_le in H1, H2. lia.
      * intros wl ws ml mps tl tips v n Hw Hws Hm Hmps Ht Htips Hv Hn Hr.
        unfold critique_of_json. rewrite Hw. cbn [obind py_iter]. rewrite Hws.
        cbn [obind]. rewrite Hm. cbn [obind py_iter]. rewrite Hmps.
        cbn [obind]. rewrite Ht. cbn [obind py_iter]. rewrite Htips.
        cbn [obind]. rewrite Hv. cbn [obind].
        assert (Hobj : exists o, j = JObj o)
          by (destruct j; try discriminate Hw; eexists; reflexivity).
        destruct Hobj as [o ->]. cbn [py_get obind].
        unfold CritiqueResult.build. rewrite Hn. cbn [obind].
        destruct ((1 <=? n)%Z && (n <=? 10)%Z) eqn:Hb; [|reflexivity].
        exfalso. apply Hr. apply andb_true_iff in Hb as [H1 H2].
        apply Z.leb_le in H1, H2. lia.
      * apply critique_of_json_range.
  - split; [eexists; split; reflexivity|]. split; reflexivity.
Qed.

(** C2, counterexample: an answer that is valid JSON but not an object
    (here the empty list) is not in the expected shape, yet [critique]
    raises instead of returning the degraded result. *)
Lemma critique_non_object_json_raises :
  demo_loads "[]" = Some (JArr []) /\
  critique_of_response demo_loads (RText "[]") = Raise AttributeError /\
  critique_of_response demo_loads (RText "[]") <> Ok degraded_critique.
Proof.
  split; [reflexivity|]. split; [reflexivity|].
  vm_compute. discriminate.
Qed.

(** C2, witness: an answer that is not JSON degrades. *)
Lemma critique_failure_paths_witness :
  demo_loads "not json" = None /\
  critique_of_response demo_loads (RText "not json") = Ok degraded_critique /\
  critique_of_response (fun _ => Some (JObj [("overall_score", JNum 11)])) (RText "s11")
    = Raise ValidationError.
Proof.
  split; [reflexivity|]. split.
  - apply (proj1 (proj2 (critique_failure_paths demo_loads (RText "not json"))) "not json");
      reflexivity.
  - destruct (proj1 (proj2 (proj2 (critique_failure_paths
                (fun _ => Some (JObj [("overall_score", JNum 11)])) (RText "s11"))))
                "s11" (JObj [("overall_score", JNum 11)]) eq_refl eq_refl)
      as (_ & _ & _ & H & _).
    apply (H [] [] [] [] [] [] (JNum 11) 11%Z); try reflexivity. lia.
Defined.

(** C3 (amended): inside [refine_iterative], the loop stops at the first
    critique reaching the target: if the [i]-th critique (counting from 0)
    scores at least [target], the loop returns with [i + 1] iterations, the
    critiques up to that one as history, that critique as the last call it
    makes, and exactly [i] rewrites, none after it.  The pipeline
    [refine_prompt] enters the loop only when [use_iterations] is set and
    [max_iterations > 1]: then its trace after the analysis starts with the
    loop's trace; otherwise it calls the rewrite once, right after the
    analysis, whatever the first critique scored. *)
Theorem refine_iterative_stops_at_target :
  (forall json_loads infer original category maxit target tr evs res i c,
     refine_iterative json_loads infer original category maxit target tr
       = (res, (tr ++ evs)%list) ->
     nth_error (crit_outcomes json_loads evs) i = Some (Ok c) ->
     (target <= CritiqueResult.overall_score c)%Z ->
     exists txt hs pre r,
       res = Ok (txt, Z.of_nat (S i), (hs ++ [c])%list) /\ length hs = i /\
       evs = (pre ++ [EInfer (ReqCritique txt (Some category)) r])%list /\
       critique_of_response json_loads r = Ok c /\ count_refines evs = i) /\
  (forall json_loads lower infer db_save MAXIT prompt user_id answers use m tr a tr1,
     (use = false \/ (m <= 1)%Z) ->
     analyze_prompt json_loads lower infer prompt user_id tr = (Ok a, tr1) ->
     exists r post,
       snd (refine_prompt json_loads lower infer db_save MAXIT prompt user_id answers
              use (Some m) tr) =
       (tr1 ++ EInfer (ReqRefine prompt (Analysis.category a) (Analysis.critique a)
                         (match answers with Some l => l | None => [] end)) r
            :: post)%list) /\
  (forall json_loads lower infer db_save MAXIT prompt user_id answers m tr a tr1,
     (1 < m)%Z ->
     analyze_prompt json_loads lower infer prompt user_id tr = (Ok a, tr1) ->
     exists post,
       snd (refine_prompt json_loads lower infer db_save MAXIT prompt user_id answers
              true (Some m) tr) =
       (snd (refine_iterative json_loads infer prompt (Analysis.category a) m 8 tr1)
        ++ post)%list).
Proof.
  split; [|split].
  - intros json_loads infer original category maxit target tr evs res i c Hrun Hi Hc.
    destruct (refine_loop_stops_at json_loads infer category maxit target _ _ _ _ _ _ _ _ _
                Hrun Hi Hc) as (txt & hs & pre & r & Hres & Hl & Hevs & Hr & Hn).
    exists txt, hs, pre, r. repeat split; auto.
  - intros json_loads lower infer db_save MAXIT prompt user_id answers use m tr a tr1 Hm Ha.
    apply refine_prompt_single_rewrite; auto.
  - intros json_loads lower infer db_save MAXIT prompt user_id answers m tr a tr1 Hm Ha.
    unfold refine_prompt. cbv zeta. unfold bind at 1. rewrite Ha. cbv beta iota.
    replace (true && (1 <? m)%Z) with true by (symmetry; apply Z.ltb_lt; exact Hm).
    match goal with
    | |- exists post, snd (bind ?m2 ?f2 tr1) = _ =>
        destruct (bind_snd_extends m2 f2 tr1) as [e2 E2];
          [intros x; apply extends_refine_tail|]
    end.
    rewrite E2.
    match goal with
    | |- exists post, (snd (bind ?m1 ?f1 tr1) ++ _)%list = _ =>
        destruct (bind_snd_extends m1 f1 tr1) as [e1 E1];
          [intros [[? ?] ?]; apply extends_ret|]
    end.
    rewrite E1. exists (e1 ++ e2)%list. rewrite app_assoc. reflexivity.
Qed.

(** C3, counterexample (Scenario C through [refine_prompt]): with
    [max_iterations = 1] and every critique scoring 9, the run makes one
    rewrite call although the first critique already scored 9. *)
Lemma refine_prompt_one_iteration_still_rewrites :
  let tr := snd (refine_prompt demo_loads (fun s => s) (demo_infer "score9")
                   (fun _ _ => Ok tt) 3 "orig" "u" None true (Some 1%Z) []) in
  crit_outcomes demo_loads tr = [Ok (crit_with_score 9); Ok (crit_with_score 9)] /\
  count_refines tr = 1%nat.
Proof. vm_compute. split; reflexivity. Qed.

(** C3, witness: Scenario C inside the loop. *)
Lemma refine_iterative_stops_at_target_witness :
  exists txt hs pre r,
    Ok ("orig", 1%Z, [crit_with_score 9])
      = Ok (txt, Z.of_nat 1, (hs ++ [crit_with_score 9])%list) /\ length hs = O /\
    [EInfer (ReqCritique "orig" (Some CODE)) (RText "score9")]
      = (pre ++ [EInfer (ReqCritique txt (Some CODE)) r])%list /\
    critique_of_response demo_loads r = Ok (crit_with_score 9) /\
    count_refines [EInfer (ReqCritique "orig" (Some CODE)) (RText "score9")] = O.
Proof.
  apply (proj1 refine_iterative_stops_at_target demo_loads (demo_infer "score9") "orig"
           CODE 1 8 [] [EInfer (ReqCritique "orig" (Some CODE)) (RText "score9")]
           (Ok ("orig", 1%Z, [crit_with_score 9])) O (crit_with_score 9)).
  - vm_compute. reflexivity.
  - vm_compute. reflexivity.
  - vm_compute. discriminate.
Defined.

(** C4 (amended): [analyze_prompt] replaces, not merges, the critique's
    missing parameters: on a successful run (one classify, one critique and
    one validate call, in that order) the critique it returns keeps the
    critique step's weaknesses, tips, score and readiness, but its
    [missing_params] is exactly the list reported by the gap detector. *)
Theorem analyze_prompt_replaces_missing_params json_loads lower infer prompt user_id
        tr a tr' :
  analyze_prompt json_loads lower infer prompt user_id tr = (Ok a, tr') ->
  exists rc rv c,
    tr' = (tr ++ [EInfer (ReqClassify prompt) (infer (length tr) (ReqClassify prompt));
                  EInfer (ReqCritique prompt (Some (Analysis.category a))) rc;
                  EInfer (ReqValidate prompt (Analysis.category a)) rv])%list /\
    critique_of_response json_loads rc = Ok c /\
    CritiqueResult.missing_params (Analysis.critique a) = validate_of_response json_loads rv /\
    CritiqueResult.weaknesses (Analysis.critique a) = CritiqueResult.weaknesses c /\
    CritiqueResult.pro_tips (Analysis.critique a) = CritiqueResult.pro_tips c /\
    CritiqueResult.overall_score (Analysis.critique a) = CritiqueResult.overall_score c /\
    CritiqueResult.is_ready (Analysis.critique a) = CritiqueResult.is_ready c.
Proof.
  intros Ha.
  destruct (analyze_prompt_ok _ _ _ _ _ _ _ _ Ha) as (rc & rv & c & Htr & Hc & Hcr & _).
  exists rc, rv, c. rewrite Hcr. repeat split; assumption.
Qed.

(** C4, counterexample: the critique step reports the required parameter
    [tone], the gap detector's call fails (so it reports nothing), and the
    critique returned by [analyze_prompt] has no [tone] among its missing
    parameters. *)
Lemma analyze_prompt_drops_critique_gaps :
  critique_of_response demo_loads (RText "gaps")
    = Ok (CritiqueResult.mk [] [demo_gap] [] 6 false) /\
  match analyze_prompt demo_loads (fun s => s) (demo_infer "gaps") "orig" "u" [] with
  | (Ok a, tr') =>
      In (EInfer (ReqCritique "orig" (Some (Analysis.category a))) (RText "gaps")) tr' /\
      ~ In demo_gap (CritiqueResult.missing_params (Analysis.critique a))
  | (Raise _, _) => False
  end.
Proof.
  split; [reflexivity|].
  vm_compute. split.
  - right. left. reflexivity.
  - intros [].
Qed.

(** C4, witness: the theorem on the run of the counterexample. *)
Lemma analyze_prompt_replaces_missing_params_witness :
  exists a tr',
    analyze_prompt demo_loads (fun s => s) (demo_infer "gaps") "orig" "u" [] = (Ok a, tr') /\
    CritiqueResult.missing_params (Analysis.critique a) = [].
Proof.
  remember (analyze_prompt demo_loads (fun s => s) (demo_infer "gaps") "orig" "u" [])
    as run eqn:E.
  destruct run as [[a|e] tr']; [|vm_compute in E; discriminate E].
  exists a, tr'. split; [reflexivity|].
  destruct (analyze_prompt_replaces_missing_params _ _ _ _ _ _ _ _ (eq_sym E))
    as (rc & rv & c & Htr & _ & Hm & _).
  rewrite Hm. vm_compute in E. injection E as Ea Etr. subst a tr'.
  vm_compute in Htr. injection Htr; intros; subst; vm_compute; reflexivity.
Defined.

(** C5 (amended): [refine_iterative] makes at most [max_iterations]
    critique calls and at most [max_iterations] rewrite calls (none when
    [max_iterations <= 0]); when it returns, [iterations_used] lies in
    [[1, max_iterations]] if [max_iterations >= 1], and otherwise equals
    [max_iterations], with the original text, an empty history and no call
    at all. *)
Theorem refine_iterative_bounded json_loads infer original category maxit target tr :
  exists evs,
    snd (refine_iterative json_loads infer original category maxit target tr)
      = (tr ++ evs)%list /\
    (length (crit_outcomes json_loads evs) <= Z.to_nat maxit)%nat /\
    (count_refines evs <= Z.to_nat maxit)%nat /\
    (forall txt n hist,
       fst (refine_iterative json_loads infer original category maxit target tr)
         = Ok (txt, n, hist) ->
       ((1 <= maxit)%Z -> (1 <= n <= maxit)%Z) /\
       ((maxit <= 0)%Z -> n = maxit /\ txt = original /\ hist = [] /\ evs = [])).
Proof.
  destruct (refine_loop_calls_bounded json_loads infer category maxit target
              (Z.to_nat maxit) 0 original [] tr) as (evs & Hevs & Hc & Hr).
  exists evs. split; [exact Hevs|]. split; [exact Hc|]. split; [exact Hr|].
  intros txt n hist Hres. split.
  - intros Hm.
    destruct (refine_iterative json_loads infer original category maxit target tr)
      as [res tr'] eqn:Hrun.
    simpl in Hres. subst res.
    destruct (refine_loop_iterations _ _ _ _ _ _ _ _ _ _ _ _ _ _ Hrun) as [-> | Hn];
      [lia|].
    rewrite Z2Nat.id in Hn by lia. lia.
  - intros Hm.
    unfold refine_iterative in Hres, Hevs.
    replace (Z.to_nat maxit) with O in Hres, Hevs by lia.
    simpl in Hres, Hevs. injection Hres as <- <- <-.
    repeat split; auto.
    rewrite <- (app_nil_r tr) in Hevs at 1. symmetry.
    exact (app_inv_head tr _ _ Hevs).
Qed.

(** C5, counterexample: with [max_iterations = 0] the loop returns the
    original text with [iterations_used = 0], outside [[1, max_iterations]]. *)
Lemma refine_iterative_zero_budget :
  refine_iterative demo_loads (demo_infer "score4") "orig" CODE 0 8 []
    = (Ok ("orig", 0%Z, []), []) /\ ~ (1 <= 0 <= 0)%Z.
Proof. split; [reflexivity | lia]. Qed.

(** C5, witness: three iterations that never converge use all three. *)
Lemma refine_iterative_bounded_witness :
  fst (refine_iterative demo_loads (demo_infer "score4") "orig" CODE 3 8 [])
    = Ok ("better better better orig", 3%Z,
          [crit_with_score 4; crit_with_score 4; crit_with_score 4]) /\
  (1 <= 3 <= 3)%Z.
Proof.
  split; [vm_compute; reflexivity|].
  destruct (refine_iterative_bounded demo_loads (demo_infer "score4") "orig" CODE 3 8 [])
    as (evs & _ & _ & _ & H).
  apply (H "better better better orig" 3%Z
           [crit_with_score 4; crit_with_score 4; crit_with_score 4]).
  - vm_compute. reflexivity.
  - lia.
Defined.

(** C6: the keyword fallback is the function of the text and the keyword
    table described by the spec: with [m] the largest keyword count of a
    category, [(GENERAL, 0.3)] when [m = 0], else the first category of the
    table whose count is [m], with confidence [min(0.9, 0.3 + 0.15 m)].
    Being a function of the text alone, it answers the same on equal texts. *)
Theorem keyword_fallback_first_best lower text :
  _detect_with_keywords lower text = spec_keyword_classify lower text.
Proof.
  unfold _detect_with_keywords, spec_keyword_classify.
  rewrite keyword_scores_filter, py_max_key_filter_pos.
  - set (counts := map _ keyword_hints).
    set (m := fold_right _ 0 counts).
    destruct (m =? 0)%Z; [reflexivity|].
    destruct (find _ counts) as [[c n]|] eqn:Hf; [|reflexivity].
    apply find_some in Hf as [_ Hn]. simpl in Hn. apply Z.eqb_eq in Hn. subst n.
    reflexivity.
  - apply Forall_forall. intros [c n] Hin.
    apply in_map_iff in Hin as [[c' ks] [Heq _]]. injection Heq as _ <-.
    simpl. unfold kw_score. lia.
Qed.

(** C7: the AI path of [detect_category] passes the service's confidence
    through unchecked: an answer [{"category": "code", "confidence": 1.5}]
    makes [detect_category] return [(CODE, 1.5)], a confidence outside
    [[0, 1]]. *)
Theorem detect_category_unbounded_confidence lower prompt :
  detect_category lower demo_loads (RText "ai15") prompt = (CODE, 3 # 2) /\
  ~ (3 # 2 <= 1)%Q.
Proof.
  split; [reflexivity|].
  unfold Qle. simpl. lia.
Qed.

(** C8: the persistence call never changes the outcome of [refine_prompt]:
    whatever the database answers, failure included, the run returns
    exactly what it returns when the write succeeds. *)
Theorem refine_prompt_ignores_persistence_failure json_loads lower infer db_save MAXIT
        prompt user_id answers use m tr :
  fst (refine_prompt json_loads lower infer db_save MAXIT prompt user_id answers use m tr)
  = fst (refine_prompt json_loads lower infer (fun _ _ => Ok tt) MAXIT prompt user_id
           answers use m tr).
Proof.
  unfold refine_prompt. cbv zeta.
  apply bind_fst_congr. intros a tr1.
  apply bind_fst_congr. intros [[im n] fc] tr2.
  apply bind_fst_congr. intros ex tr3.
  unfold bind, _save_to_db. destruct (db_save _ _); reflexivity.
Qed.

(** C9 (amended): for a bound [k >= 0], [get_questions_for_missing] returns
    the questions of the first [k] parameters of the list with the required
    ones first and the others after, each group in its original order; so
    at most [k] questions.  (A negative [k] slices from the end, as Python's
    [[:k]] does, and the bound no longer holds.) *)
Theorem get_questions_for_missing_ranked ps k (Hk : (0 <= k)%Z) :
  get_questions_for_missing ps k =
    map question_line
      (firstn (Z.to_nat k)
         (filter is_required ps ++ filter (fun p => negb (is_required p)) ps)) /\
  (length (get_questions_for_missing ps k) <= Z.to_nat k)%nat.
Proof.
  assert (Heq : get_questions_for_missing ps k =
    map question_line
      (firstn (Z.to_nat k)
         (filter is_required ps ++ filter (fun p => negb (is_required p)) ps))).
  { unfold get_questions_for_missing, ranked_params, py_slice_to.
    rewrite py_sorted_importance.
    destruct (0 <=? k)%Z eqn:Hk'; [reflexivity|]. apply Z.leb_gt in Hk'. lia. }
  split; [exact Heq|].
  rewrite Heq, length_map, length_firstn. lia.
Qed.

(** C9, counterexample: with the bound [-1] and two parameters, one
    question comes back, more than [k]. *)
Lemma get_questions_negative_bound :
  get_questions_for_missing [demo_gap; demo_gap] (-1) = ["❗ which tone?"] /\
  ~ (Z.of_nat (length (get_questions_for_missing [demo_gap; demo_gap] (-1))) <= -1)%Z.
Proof. split; [reflexivity|]. simpl. lia. Qed.

(** C9, witness: a recommended parameter ranked after a required one. *)
Lemma get_questions_for_missing_ranked_witness :
  get_questions_for_missing
    [MissingParameter.mk "length" "how long?" "recommended"; demo_gap] 1
    = ["❗ which tone?"].
Proof.
  rewrite (proj1 (get_questions_for_missing_ranked
                    [MissingParameter.mk "length" "how long?" "recommended"; demo_gap] 1
                    ltac:(lia))).
  reflexivity.
Defined.

(** When the loop returns a non-empty history whose last critique neither
    reaches the target nor is ready, its trace ends with that critique
    followed by one rewrite of the critiqued text, and the text returned is
    the rewrite's output. *)
Lemma refine_iterative_exhausted json_loads infer original category maxit target tr
      txt n hist tr' c :
  refine_iterative json_loads infer original category maxit target tr
    = (Ok (txt, n, hist), tr') ->
  last_opt hist = Some c ->
  (CritiqueResult.overall_score c < target)%Z -> CritiqueResult.is_ready c = false ->
  exists pre b r s,
    tr' = (pre ++ [EInfer (ReqCritique b (Some category)) r;
                   EInfer (ReqRefine b category c []) (RText s)])%list /\
    critique_of_response json_loads r = Ok c /\ txt = clean_refined s.
Proof.
  intros Hrun Hl Hs Hr. unfold refine_iterative in Hrun.
  destruct (refine_loop_exhausted _ _ _ _ _ _ _ _ _ _ _ _ _ _ _ Hrun Hl Hs Hr)
    as [(_ & _ & ->) | H]; [discriminate Hl | exact H].
Qed.

(** C10: when [refine_iterative] runs out of iterations without
    converging, the last critique of its history is of the text given to
    the last rewrite, and the returned text is that rewrite's output, which
    no critique follows.  Through [refine_prompt] (iterative mode, target 8)
    that last critique becomes the result's [critique], the rewrite's
    output its [improved_prompt], no critique call comes after the rewrite,
    and [improvement_delta] is that critique's score minus the initial
    one. *)
Theorem refine_iterative_last_rewrite_uncritiqued :
  (forall json_loads infer original category maxit target tr txt n hist tr' c,
     refine_iterative json_loads infer original category maxit target tr
       = (Ok (txt, n, hist), tr') ->
     last_opt hist = Some c ->
     (CritiqueResult.overall_score c < target)%Z -> CritiqueResult.is_ready c = false ->
     exists pre b r s,
       tr' = (pre ++ [EInfer (ReqCritique b (Some category)) r;
                      EInfer (ReqRefine b category c []) (RText s)])%list /\
       critique_of_response json_loads r = Ok c /\ txt = clean_refined s) /\
  (forall json_loads lower infer db_save MAXIT prompt user_id answers m tr rr tr',
     (1 < m)%Z ->
     refine_prompt json_loads lower infer db_save MAXIT prompt user_id answers true
       (Some m) tr = (Ok rr, tr') ->
     (CritiqueResult.overall_score (RefinementResult.critique rr) < 8)%Z ->
     CritiqueResult.is_ready (RefinementResult.critique rr) = false ->
     exists a tr1 pre b r s post,
       analyze_prompt json_loads lower infer prompt user_id tr = (Ok a, tr1) /\
       tr' = (pre ++ [EInfer (ReqCritique b (Some (RefinementResult.category rr))) r;
                      EInfer (ReqRefine b (RefinementResult.category rr)
                                (RefinementResult.critique rr) []) (RText s)]
                  ++ post)%list /\
       critique_of_response json_loads r = Ok (RefinementResult.critique rr) /\
       RefinementResult.improved_prompt rr = clean_refined s /\
       crit_outcomes json_loads post = [] /\
       RefinementResult.improvement_delta rr =
         (CritiqueResult.overall_score (RefinementResult.critique rr)
          - CritiqueResult.overall_score (Analysis.critique a))%Z).
Proof.
  split; [exact refine_iterative_exhausted|].
  intros json_loads lower infer db_save MAXIT prompt user_id answers m tr rr tr' Hm Hrun Hs Hr.
  destruct (refine_prompt_iterative_ok _ _ _ _ _ _ _ _ _ _ _ _ Hm Hrun)
    as (a & tr1 & txt & n & h & tr2 & c & post & Ha & Hi & Hl & _ & Himp & Hcat & Hc & _
        & Hd & Htr & Hpost).
  rewrite Hc in Hs, Hr |- *. rewrite Hcat, Himp.
  destruct (refine_iterative_exhausted _ _ _ _ _ _ _ _ _ _ _ _ Hi Hl Hs Hr)
    as (pre & b & r & s & Htr2 & Hrc & Htxt).
  exists a, tr1, pre, b, r, s, post.
  repeat split; auto.
  rewrite Htr, Htr2, <- app_assoc. reflexivity.
Qed.

(** C10, witness: two iterations that never converge; the history's last
    critique is of ["better orig"], the text returned is
    ["better better orig"]. *)
Lemma refine_iterative_last_rewrite_uncritiqued_witness :
  exists tr' pre b r s,
    refine_iterative demo_loads (demo_infer "score4") "orig" CODE 2 8 []
      = (Ok ("better better orig", 2%Z, [crit_with_score 4; crit_with_score 4]), tr') /\
    tr' = (pre ++ [EInfer (ReqCritique b (Some CODE)) r;
                   EInfer (ReqRefine b CODE (crit_with_score 4) []) (RText s)])%list /\
    critique_of_response demo_loads r = Ok (crit_with_score 4) /\
    "better better orig" = clean_refined s.
Proof.
  remember (refine_iterative demo_loads (demo_infer "score4") "orig" CODE 2 8 [])
    as run eqn:E.
  destruct run as [res tr'].
  assert (Hres : res = Ok ("better better orig", 2%Z, [crit_with_score 4; crit_with_score 4])).
  { vm_compute in E. injection E as -> _. reflexivity. }
  subst res.
  assert (Hl : last_opt [crit_with_score 4; crit_with_score 4] = Some (crit_with_score 4))
    by reflexivity.
  assert (Hs : (CritiqueResult.overall_score (crit_with_score 4) < 8)%Z)
    by (simpl; lia).
  assert (Hr : CritiqueResult.is_ready (crit_with_score 4) = false) by reflexivity.
  destruct (proj1 refine_iterative_last_rewrite_uncritiqued demo_loads (demo_infer "score4")
              "orig" CODE 2 8 [] _ _ _ tr' _ (eq_sym E) Hl Hs Hr)
    as (pre & b & r & s & H).
  exists tr', pre, b, r, s. split; [reflexivity | exact H].
Defined.

(* ------------------------------------------------------------------ *)
(** ** Further properties of the code *)

Lemma fold_max_step_in {A} (t : list (A * Z)) :
  forall acc, In (fold_left max_step t acc) (acc :: t).
Proof.
  induction t as [|z t IH]; intros acc; cbn [fold_left]; [left; reflexivity|].
  destruct (IH (max_step acc z)) as [E|E].
  - rewrite <- E. unfold max_step. destruct (snd acc <? snd z)%Z; simpl; auto.
  - simpl. auto.
Qed.

Lemma py_max_key_in {A} (l : list (A * Z)) x : py_max_key l = Some x -> In x l.
Proof.
  destruct l as [|y t]; [discriminate|]. simpl. intros H. injection H as <-.
  apply fold_max_step_in.
Qed.

Lemma keyword_scores_in prompt_lower c n :
  In (c, n) (keyword_scores prompt_lower) -> (0 < n)%Z /\ c <> GENERAL.
Proof.
  rewrite keyword_scores_filter. intros H. apply filter_In in H as [H Hp].
  apply in_map_iff in H as [[c' ks] [Heq Hin]]. injection Heq as <- _.
  simpl in Hp. apply Z.ltb_lt in Hp. split; [exact Hp|].
  simpl in Hin. intros ->.
  repeat (destruct Hin as [Hin|Hin]; [discriminate Hin|]). exact Hin.
Qed.

(** The keyword fallback's answer, in the model's exact arithmetic. *)
Lemma keyword_bounds lower text :
  (fst (_detect_with_keywords lower text) = GENERAL /\
   snd (_detect_with_keywords lower text) = 3 # 10) \/
  (fst (_detect_with_keywords lower text) <> GENERAL /\
   (45 # 100 <= snd (_detect_with_keywords lower text) <= 9 # 10)%Q).
Proof.
  unfold _detect_with_keywords.
  destruct (py_max_key (keyword_scores (lower text))) as [[c n]|] eqn:H;
    [right | left; auto].
  apply py_max_key_in, keyword_scores_in in H as [Hn Hc]. simpl.
  split; [exact Hc|]. split; [|apply Q.le_min_l].
  apply Q.min_glb; [unfold Qle; simpl; lia|].
  apply Qle_trans with ((3 # 10) + inject_Z 1 * (15 # 100))%Q;
    [unfold Qle; simpl; lia|].
  apply Qplus_le_r. apply Qmult_le_compat_r; [|unfold Qle; simpl; lia].
  rewrite <- Zle_Qle. lia.
Qed.

(** [detect_category] always reports a confidence of at least 0.3; its
    answer is either the keyword fallback's, or the AI answer unchanged,
    whose confidence is then at least 0.7. *)
Theorem detect_category_cases lower json_loads r prompt :
  (3 # 10 <= snd (detect_category lower json_loads r prompt))%Q /\
  (detect_category lower json_loads r prompt = _detect_with_keywords lower prompt \/
   (_detect_with_ai json_loads r = Ok (detect_category lower json_loads r prompt) /\
    (7 # 10 <= snd (detect_category lower json_loads r prompt))%Q)).
Proof.
  assert (Hk : (3 # 10 <= snd (_detect_with_keywords lower prompt))%Q).
  { destruct (keyword_bounds lower prompt) as [[_ ->] | [_ [H _]]].
    - apply Qle_refl.
    - eapply Qle_trans; [|exact H]. unfold Qle; simpl; lia. }
  unfold detect_category.
  destruct (_detect_with_ai json_loads r) as [[c q]|e] eqn:Ha.
  - destruct (Qle_bool (7 # 10) q) eqn:Hq.
    + apply Qle_bool_iff in Hq. simpl. split.
      * eapply Qle_trans; [|exact Hq]. unfold Qle; simpl; lia.
      * right. auto.
    + auto.
  - auto.
Qed.

(** [analyze_prompt] fails only at the critique: the failing run made the
    classification call and the critique call, nothing else, and the
    critique of the answer raised the exception it reports. *)
Theorem analyze_prompt_raise json_loads lower infer prompt user_id tr e tr' :
  analyze_prompt json_loads lower infer prompt user_id tr = (Raise e, tr') ->
  exists rc,
    tr' = (tr ++ [EInfer (ReqClassify prompt) (infer (length tr) (ReqClassify prompt));
                  EInfer (ReqCritique prompt
                            (Some (fst (detect_category lower json_loads
                                          (infer (length tr) (ReqClassify prompt))
                                          prompt)))) rc])%list /\
    critique_of_response json_loads rc = Raise e.
Proof.
  unfold analyze_prompt, critique, call, lift, ret, bind. cbv beta iota zeta.
  destruct (detect_category lower json_loads _ prompt) as [cat conf].
  destruct (critique_of_response json_loads _) as [c|e'] eqn:Hc; [discriminate|].
  intros H. injection H as <- <-.
  eexists. split; [|exact Hc]. simpl. rewrite <- app_assoc. reflexivity.
Qed.

(** A service that always fails makes [analyze_prompt] raise. *)
Lemma analyze_prompt_raise_witness :
  exists e tr',
    analyze_prompt demo_loads (fun s => s) (fun _ _ => RFail) "orig" "u" [] = (Raise e, tr') /\
    exists rc, critique_of_response demo_loads rc = Raise e.
Proof.
  remember (analyze_prompt demo_loads (fun s => s) (fun _ _ => RFail) "orig" "u" [])
    as run eqn:E.
  destruct run as [[a|e] tr']; [vm_compute in E; discriminate E|].
  exists e, tr'. split; [reflexivity|].
  destruct (analyze_prompt_raise _ _ _ _ _ _ _ _ (eq_sym E)) as (rc & _ & H).
  exists rc. exact H.
Defined.

(** The shape of a successful [refine_prompt] run. *)
Lemma refine_prompt_ok_shape json_loads lower infer db_save MAXIT prompt user_id answers
      use m tr rr tr' :
  refine_prompt json_loads lower infer db_save MAXIT prompt user_id answers use
    (Some m) tr = (Ok rr, tr') ->
  exists a tr1 tr2 rx res,
    analyze_prompt json_loads lower infer prompt user_id tr = (Ok a, tr1) /\
    ((use && (1 <? m)%Z = true /\
      exists hs,
        refine_iterative json_loads infer prompt (Analysis.category a) m 8 tr1
          = (Ok (RefinementResult.improved_prompt rr,
                 RefinementResult.iterations_used rr, hs), tr2) /\
        RefinementResult.critique rr =
          match last_opt hs with Some c => c | None => Analysis.critique a end) \/
     (use && (1 <? m)%Z = false /\
      exists s r,
        RefinementResult.iterations_used rr = 1%Z /\
        RefinementResult.improved_prompt rr = clean_refined s /\
        tr2 = (tr1 ++ [EInfer (ReqRefine prompt (Analysis.category a) (Analysis.critique a)
                                 (match answers with Some l => l | None => [] end))
                          (RText s);
                       EInfer (ReqCritique (clean_refined s) (Some (Analysis.category a)))
                          r])%list /\
        critique_of_response json_loads r = Ok (RefinementResult.critique rr))) /\
    tr' = (tr2 ++
           [EInfer (ReqExplain prompt (RefinementResult.improved_prompt rr)
                      (CritiqueResult.weaknesses (Analysis.critique a))) rx;
            ESave (PromptHistory.mk user_id prompt (RefinementResult.improved_prompt rr)
                     (Analysis.category a) (CritiqueResult.weaknesses (Analysis.critique a))
                     (CritiqueResult.overall_score (Analysis.critique a))
                     (CritiqueResult.overall_score (RefinementResult.critique rr))
                     (RefinementResult.iterations_used rr)) res])%list /\
    RefinementResult.original_prompt rr = prompt /\
    RefinementResult.category rr = Analysis.category a /\
    RefinementResult.explanation rr =
      match rx with RFail => explanation_fallback | RText s => py_strip s end /\
    RefinementResult.improvement_delta rr =
      (CritiqueResult.overall_score (RefinementResult.critique rr)
       - CritiqueResult.overall_score (Analysis.critique a))%Z.
Proof.
  intros H. unfold refine_prompt in H. cbv zeta in H. unfold bind at 1 in H.
  destruct (analyze_prompt json_loads lower infer prompt user_id tr)
    as [[a|e] tr1] eqn:Ha; [|discriminate H].
  cbv beta iota in H.
  destruct (use && (1 <? m)%Z) eqn:Hb.
  - unfold bind at 1 in H. unfold bind at 1 in H.
    destruct (refine_iterative json_loads infer prompt (Analysis.category a) m 8 tr1)
      as [[[[txt n] hs]|e] tr2] eqn:Hi; [|discriminate H].
    unfold ret in H. cbv beta iota in H.
    unfold generate_explanation, call, bind, ret, _save_to_db in H.
    cbv beta iota zeta in H.
    destruct (infer _ (ReqExplain _ _ _)) as [|sx] eqn:Hx; destruct (db_save _ _);
      injection H as <- <-;
      do 5 eexists; (split; [reflexivity|]);
      (split; [left; split; [reflexivity|]; eexists; split; [exact Hi|reflexivity]|]);
      repeat split; rewrite <- ?app_assoc; reflexivity.
  - unfold refine, critique, call, lift, generate_explanation, _save_to_db, ret, bind in H.
    cbv beta iota zeta in H.
    destruct (infer _ (ReqRefine _ _ _ _)) as [|s] eqn:Hs; [discriminate H|].
    destruct (critique_of_response json_loads _) as [fc|e] eqn:Hc;
      cbv beta iota zeta in H; [|discriminate H].
    unfold call, bind, ret in H. cbv beta iota zeta in H.
    match type of H with
    | context [infer ?k (ReqExplain ?x ?y ?z)] => destruct (infer k (ReqExplain x y z))
    end;
    match type of H with
    | context [db_save ?k ?h] => destruct (db_save k h)
    end;
      injection H as <- <-;
      do 5 eexists; (split; [reflexivity|]);
      (split; [right; split; [reflexivity|]; do 2 eexists;
               split; [reflexivity|]; split; [reflexivity|];
               split; [rewrite <- ?app_assoc; reflexivity | exact Hc]|]);
      repeat split; rewrite <- ?app_assoc; reflexivity.
Qed.

Lemma crit_response_range json_loads r c :
  critique_of_response json_loads r = Ok c -> (1 <= CritiqueResult.overall_score c <= 10)%Z.
Proof.
  destruct r as [|s]; simpl; [discriminate|].
  destruct (json_loads s); [apply critique_of_json_range|].
  intros H. injection H as <-. simpl. lia.
Qed.

Lemma refine_loop_range json_loads infer cat maxit target :
  forall f it cur hist tr txt n h tr',
    refine_loop json_loads infer cat maxit target f it cur hist tr = (Ok (txt, n, h), tr') ->
    Forall (fun c => 1 <= CritiqueResult.overall_score c <= 10)%Z hist ->
    Forall (fun c => 1 <= CritiqueResult.overall_score c <= 10)%Z h.
Proof.
  induction f as [|f IH]; intros it cur hist tr txt n h tr' H Hh.
  - simpl in H. unfold ret in H. injection H as _ _ <- _. exact Hh.
  - rewrite refine_loop_S in H. cbv zeta in H.
    destruct (critique_of_response json_loads _) as [c|e] eqn:Hc; [|discriminate H].
    assert (Hh' : Forall (fun c => 1 <= CritiqueResult.overall_score c <= 10)%Z
                    (hist ++ [c])%list).
    { apply Forall_app. split; [exact Hh|].
      constructor; [eapply crit_response_range; eauto | constructor]. }
    destruct (_ || _).
    + injection H as _ _ <- _. exact Hh'.
    + destruct (infer _ (ReqRefine cur cat c [])) as [|s]; [discriminate H|]. eapply IH; eauto.
Qed.

Lemma last_opt_in {A} (l : list A) x : last_opt l = Some x -> In x l.
Proof.
  unfold last_opt. destruct (rev l) as [|y t] eqn:E; [discriminate|].
  intros H. injection H as ->. apply in_rev. rewrite E. left. reflexivity.
Qed.

(** A successful [refine_prompt] reports a final score in [[1, 10]] and an
    improvement in [[-9, 9]]. *)
Theorem refine_prompt_scores_in_range json_loads lower infer db_save MAXIT prompt user_id
        answers use m tr rr tr' :
  refine_prompt json_loads lower infer db_save MAXIT prompt user_id answers use
    (Some m) tr = (Ok rr, tr') ->
  (1 <= CritiqueResult.overall_score (RefinementResult.critique rr) <= 10)%Z /\
  (-9 <= RefinementResult.improvement_delta rr <= 9)%Z.
Proof.
  intros H.
  destruct (refine_prompt_ok_shape _ _ _ _ _ _ _ _ _ _ _ _ _ H)
    as (a & tr1 & tr2 & rx & res & Ha & Hbr & _ & _ & _ & _ & Hd).
  destruct (analyze_prompt_ok _ _ _ _ _ _ _ _ Ha) as (rc & rv & c0 & _ & Hc0 & Hca & _).
  assert (Ra : (1 <= CritiqueResult.overall_score (Analysis.critique a) <= 10)%Z).
  { rewrite Hca. simpl. eapply crit_response_range; eauto. }
  assert (Rr : (1 <= CritiqueResult.overall_score (RefinementResult.critique rr) <= 10)%Z).
  { destruct Hbr as [(_ & hs & Hi & Hcr) | (_ & s & r & _ & _ & _ & Hr)].
    - rewrite Hcr. destruct (last_opt hs) as [c|] eqn:Hl; [|exact Ra].
      unfold refine_iterative in Hi.
      pose proof (refine_loop_range _ _ _ _ _ _ _ _ _ _ _ _ _ _ Hi (Forall_nil _)) as HF.
      rewrite Forall_forall in HF. apply HF. apply last_opt_in. exact Hl.
    - eapply crit_response_range; eauto. }
  split; [exact Rr|]. rewrite Hd. lia.
Qed.

(** A successful [refine_prompt] ends with the explanation call and then one
    save, whose record holds the returned texts, category, scores and
    iteration count, with the initial critique's weaknesses; the reported
    improvement is the saved score after minus the saved score before, and
    a failed explanation gives the fixed fallback sentence. *)
Theorem refine_prompt_saves_result json_loads lower infer db_save MAXIT prompt user_id
        answers use m tr rr tr' :
  refine_prompt json_loads lower infer db_save MAXIT prompt user_id answers use
    (Some m) tr = (Ok rr, tr') ->
  exists a tr1 pre rx res,
    analyze_prompt json_loads lower infer prompt user_id tr = (Ok a, tr1) /\
    tr' = (pre ++
           [EInfer (ReqExplain prompt (RefinementResult.improved_prompt rr)
                      (CritiqueResult.weaknesses (Analysis.critique a))) rx;
            ESave (PromptHistory.mk user_id (RefinementResult.original_prompt rr)
                     (RefinementResult.improved_prompt rr) (RefinementResult.category rr)
                     (CritiqueResult.weaknesses (Analysis.critique a))
                     (CritiqueResult.overall_score (Analysis.critique a))
                     (CritiqueResult.overall_score (RefinementResult.critique rr))
                     (RefinementResult.iterations_used rr)) res])%list /\
    RefinementResult.explanation rr =
      match rx with RFail => explanation_fallback | RText s => py_strip s end /\
    RefinementResult.improvement_delta rr =
      (CritiqueResult.overall_score (RefinementResult.critique rr)
       - CritiqueResult.overall_score (Analysis.critique a))%Z.
Proof.
  intros H.
  destruct (refine_prompt_ok_shape _ _ _ _ _ _ _ _ _ _ _ _ _ H)
    as (a & tr1 & tr2 & rx & res & Ha & _ & Htr & Ho & Hcat & He & Hd).
  exists a, tr1, tr2, rx, res. rewrite Ho, Hcat. auto.
Qed.

Lemma chained_refine_no_answers json_loads cat :
  forall n evs cur, (length evs <= n)%nat -> chained json_loads cat cur evs ->
  forall b cat' c a r, In (EInfer (ReqRefine b cat' c a) r) evs -> a = [].
Proof.
  induction n as [|n IH]; intros evs cur Hlen Hch b cat' c a r Hin.
  - destruct evs; [destruct Hin | simpl in Hlen; lia].
  - destruct evs as [|e rest]; [destruct Hin|].
    destruct e as [q r0|h res]; [|destruct Hch].
    destruct q; try (exfalso; exact Hch).
    destruct Hch as (_ & _ & Hrest).
    destruct Hin as [Heq|Hin]; [discriminate Heq|].
    destruct rest as [|e2 rest']; [destruct Hin|].
    destruct e2 as [q2 r2|h res]; [|destruct Hrest].
    destruct q2; try (exfalso; exact Hrest).
    destruct Hrest as (_ & _ & _ & Ha & Hnext).
    destruct Hin as [Heq|Hin].
    + injection Heq. intros. subst. reflexivity.
    + destruct r2 as [|s].
      * subst rest'. destruct Hin.
      * eapply IH; [|exact Hnext|exact Hin]. simpl in Hlen. lia.
Qed.

(** The user's answers reach a rewrite only in the single-rewrite mode: in
    the iterative mode ([use_iterations] and [max_iterations > 1]) every
    rewrite call of a successful run has no answers, and otherwise the first
    call after the analysis is the rewrite of the prompt with the answers. *)
Theorem refine_prompt_user_answers json_loads lower infer db_save MAXIT prompt user_id
        answers :
  (forall m tr rr tr',
     (1 < m)%Z ->
     refine_prompt json_loads lower infer db_save MAXIT prompt user_id answers true
       (Some m) tr = (Ok rr, tr') ->
     exists evs, tr' = (tr ++ evs)%list /\
       forall b cat c a r, In (EInfer (ReqRefine b cat c a) r) evs -> a = []) /\
  (forall use m tr a tr1,
     (use = false \/ (m <= 1)%Z) ->
     analyze_prompt json_loads lower infer prompt user_id tr = (Ok a, tr1) ->
     exists r post,
       snd (refine_prompt json_loads lower infer db_save MAXIT prompt user_id answers use
              (Some m) tr) =
       (tr1 ++ EInfer (ReqRefine prompt (Analysis.category a) (Analysis.critique a)
                         (match answers with Some l => l | None => [] end)) r
            :: post)%list).
Proof.
  split.
  - intros m tr rr tr' Hm H.
    destruct (refine_prompt_ok_shape _ _ _ _ _ _ _ _ _ _ _ _ _ H)
      as (a & tr1 & tr2 & rx & res & Ha & Hbr & Htr & _).
    destruct Hbr as [(_ & hs & Hi & _) | (Hb & _)];
      [| apply Z.ltb_lt in Hm; rewrite Hm in Hb; discriminate Hb].
    destruct (analyze_prompt_ok _ _ _ _ _ _ _ _ Ha) as (rc & rv & c0 & Htr1 & _).
    destruct (refine_loop_chained json_loads infer (Analysis.category a) m 8
                (Z.to_nat m) 0 prompt [] tr1) as (evs & Hevs & Hch).
    fold (refine_iterative json_loads infer prompt (Analysis.category a) m 8 tr1) in Hevs.
    rewrite Hi in Hevs. simpl in Hevs.
    eexists. split.
    + rewrite Htr, Hevs, Htr1, <- !app_assoc. reflexivity.
    + intros b cat c a0 r Hin.
      repeat (apply in_app_iff in Hin as [Hin|Hin]).
      * simpl in Hin. repeat (destruct Hin as [Hin|Hin]; [discriminate Hin|]). destruct Hin.
      * eapply chained_refine_no_answers; [apply le_n | exact Hch | exact Hin].
      * simpl in Hin. repeat (destruct Hin as [Hin|Hin]; [discriminate Hin|]). destruct Hin.
  - intros use m tr a tr1 Hc Ha. apply refine_prompt_single_rewrite; assumption.
Qed.

Lemma refine_loop_history_length json_loads infer cat maxit target :
  forall f it cur hist tr txt n h tr',
    refine_loop json_loads infer cat maxit target f it cur hist tr = (Ok (txt, n, h), tr') ->
    Z.of_nat (length hist) = it -> (it + Z.of_nat f)%Z = maxit ->
    Z.of_nat (length h) = n.
Proof.
  induction f as [|f IH]; intros it cur hist tr txt n h tr' H Hl Hf.
  - simpl in H. unfold ret in H. injection H as _ <- <- _. lia.
  - rewrite refine_loop_S in H. cbv zeta in H.
    destruct (critique_of_response json_loads _) as [c|e]; [|discriminate H].
    destruct (_ || _).
    + injection H as _ <- <- _. rewrite length_app. simpl. lia.
    + destruct (infer _ (ReqRefine cur cat c [])) as [|s]; [discriminate H|].
      eapply IH; [exact H | rewrite length_app; simpl; lia | lia].
Qed.

(** For [max_iterations >= 0], a successful [refine_iterative] returns as
    many critiques as the number of iterations it reports. *)
Theorem refine_iterative_history_length json_loads infer original category maxit target tr
        txt n h tr' (Hm : (0 <= maxit)%Z) :
  refine_iterative json_loads infer original category maxit target tr
    = (Ok (txt, n, h), tr') ->
  Z.of_nat (length h) = n.
Proof.
  intros H. unfold refine_iterative in H.
  eapply refine_loop_history_length; [exact H | reflexivity | lia].
Qed.

(** The iterative run of [refine_prompt] on a service that always scores 4. *)
Lemma refine_prompt_scores_in_range_witness :
  exists rr tr',
    refine_prompt demo_loads (fun s => s) (demo_infer "score4") (fun _ _ => Ok tt) 3
      "orig" "u" None true (Some 2%Z) [] = (Ok rr, tr') /\
    (1 <= CritiqueResult.overall_score (RefinementResult.critique rr) <= 10)%Z /\
    (-9 <= RefinementResult.improvement_delta rr <= 9)%Z.
Proof.
  remember (refine_prompt demo_loads (fun s => s) (demo_infer "score4") (fun _ _ => Ok tt) 3
              "orig" "u" None true (Some 2%Z) []) as run eqn:E.
  destruct run as [[rr|e] tr']; [|vm_compute in E; discriminate E].
  exists rr, tr'. split; [reflexivity|].
  exact (refine_prompt_scores_in_range _ _ _ _ _ _ _ _ _ _ _ _ _ (eq_sym E)).
Defined.

(** The single-rewrite run of [refine_prompt] on a service that always
    scores 4. *)
Lemma refine_prompt_saves_result_witness :
  exists rr tr' a tr1 pre rx res,
    refine_prompt demo_loads (fun s => s) (demo_infer "score4") (fun _ _ => Ok tt) 3
      "orig" "u" None false (Some 2%Z) [] = (Ok rr, tr') /\
    analyze_prompt demo_loads (fun s => s) (demo_infer "score4") "orig" "u" [] = (Ok a, tr1) /\
    tr' = (pre ++
           [EInfer (ReqExplain "orig" (RefinementResult.improved_prompt rr)
                      (CritiqueResult.weaknesses (Analysis.critique a))) rx;
            ESave (PromptHistory.mk "u" (RefinementResult.original_prompt rr)
                     (RefinementResult.improved_prompt rr) (RefinementResult.category rr)
                     (CritiqueResult.weaknesses (Analysis.critique a))
                     (CritiqueResult.overall_score (Analysis.critique a))
                     (CritiqueResult.overall_score (RefinementResult.critique rr))
                     (RefinementResult.iterations_used rr)) res])%list /\
    RefinementResult.explanation rr =
      match rx with RFail => explanation_fallback | RText s => py_strip s end /\
    RefinementResult.improvement_delta rr =
      (CritiqueResult.overall_score (RefinementResult.critique rr)
       - CritiqueResult.overall_score (Analysis.critique a))%Z.
Proof.
  remember (refine_prompt demo_loads (fun s => s) (demo_infer "score4") (fun _ _ => Ok tt) 3
              "orig" "u" None false (Some 2%Z) []) as run eqn:E.
  destruct run as [[rr|e] tr']; [|vm_compute in E; discriminate E].
  destruct (refine_prompt_saves_result _ _ _ _ _ _ _ _ _ _ _ _ _ (eq_sym E))
    as (a & tr1 & pre & rx & res & H).
  exists rr, tr', a, tr1, pre, rx, res. split; [reflexivity | exact H].
Defined.

(** Both modes on one set of answers. *)
Lemma refine_prompt_user_answers_witness :
  (exists rr tr' evs,
     refine_prompt demo_loads (fun s => s) (demo_infer "score4") (fun _ _ => Ok tt) 3
       "orig" "u" (Some [("k", "v")]) true (Some 2%Z) [] = (Ok rr, tr') /\
     tr' = ([] ++ evs)%list /\
     forall b cat c a r, In (EInfer (ReqRefine b cat c a) r) evs -> a = []) /\
  (exists a tr1 r post,
     analyze_prompt demo_loads (fun s => s) (demo_infer "score4") "orig" "u" [] = (Ok a, tr1) /\
     snd (refine_prompt demo_loads (fun s => s) (demo_infer "score4") (fun _ _ => Ok tt) 3
            "orig" "u" (Some [("k", "v")]) false (Some 2%Z) []) =
     (tr1 ++ EInfer (ReqRefine "orig" (Analysis.category a) (Analysis.critique a)
                       [("k", "v")]) r :: post)%list).
Proof.
  split.
  - remember (refine_prompt demo_loads (fun s => s) (demo_infer "score4") (fun _ _ => Ok tt) 3
                "orig" "u" (Some [("k", "v")]) true (Some 2%Z) []) as run eqn:E.
    destruct run as [[rr|e] tr']; [|vm_compute in E; discriminate E].
    destruct (proj1 (refine_prompt_user_answers demo_loads (fun s => s) (demo_infer "score4")
                       (fun _ _ => Ok tt) 3 "orig" "u" (Some [("k", "v")]))
                2%Z [] rr tr' ltac:(lia) (eq_sym E)) as (evs & H).
    exists rr, tr', evs. split; [reflexivity | exact H].
  - remember (analyze_prompt demo_loads (fun s => s) (demo_infer "score4") "orig" "u" [])
      as run eqn:E.
    destruct run as [[a|e] tr1]; [|vm_compute in E; discriminate E].
    destruct (proj2 (refine_prompt_user_answers demo_loads (fun s => s) (demo_infer "score4")
                       (fun _ _ => Ok tt) 3 "orig" "u" (Some [("k", "v")]))
                false 2%Z [] a tr1 (or_introl eq_refl) (eq_sym E)) as (r & post & H).
    exists a, tr1, r, post. split; [reflexivity | exact H].
Defined.

(** Three iterations on a service that always scores 4. *)
Lemma refine_iterative_history_length_witness :
  exists txt n h tr',
    refine_iterative demo_loads (demo_infer "score4") "orig" CODE 3 8 []
      = (Ok (txt, n, h), tr') /\
    (0 <= 3)%Z /\ Z.of_nat (length h) = n.
Proof.
  remember (refine_iterative demo_loads (demo_infer "score4") "orig" CODE 3 8 [])
    as run eqn:E.
  destruct run as [[[[txt n] h]|e] tr']; [|vm_compute in E; discriminate E].
  exists txt, n, h, tr'. split; [reflexivity|]. split; [lia|].
  apply (refine_iterative_history_length demo_loads (demo_infer "score4") "orig" CODE 3 8 []
           txt n h tr'); [lia | exact (eq_sym E)].
Defined.

Lemma prefixb_app p w : prefixb p (p ++ w) = true.
Proof. induction p as [|a p IH]; [reflexivity|]. simpl. rewrite Ascii.eqb_refl. exact IH. Qed.

Lemma append_empty_r s : (s ++ EmptyString)%string = s.
Proof. induction s as [|a s IH]; [reflexivity|]. simpl. rewrite IH. reflexivity. Qed.

Lemma py_contains_prefix s p : prefixb p s = true -> py_contains s p = true.
Proof. intros H. destruct s; cbn [py_contains]; rewrite H; reflexivity. Qed.

Lemma py_contains_app_l u w p : py_contains w p = true -> py_contains (u ++ w) p = true.
Proof.
  intros H. induction u as [|a u IH]; [exact H|].
  cbn [append py_contains]. rewrite IH. apply orb_true_r.
Qed.

Lemma py_join_contains sep l x : In x l -> py_contains (py_join sep l) x = true.
Proof.
  induction l as [|a t IH]; [intros []|].
  intros [<-|Hin]; cbn [py_join].
  - destruct t as [|b t'].
    + apply py_contains_prefix. rewrite <- (append_empty_r a) at 2. apply prefixb_app.
    + apply py_contains_prefix. apply prefixb_app.
  - destruct t as [|b t']; [destruct Hin|].
    apply py_contains_app_l, py_contains_app_l, IH, Hin.
Qed.

Lemma ranked_params_in ps k p : In p (ranked_params ps k) -> In p ps.
Proof.
  unfold ranked_params, py_slice_to.
  assert (Hs : forall n, In p (firstn n (py_sorted importance_key ps)) -> In p ps).
  { intros n Hin.
    assert (Hin' : In p (py_sorted importance_key ps)).
    { rewrite <- (firstn_skipn n (py_sorted importance_key ps)). apply in_or_app. left. exact Hin. }
    rewrite py_sorted_importance in Hin'. apply in_app_iff in Hin' as [Hin'|Hin'];
      apply filter_In in Hin'; apply Hin'. }
  destruct (0 <=? k)%Z; apply Hs.
Qed.

(** A successful [analyze_prompt] asks at most three questions, and each of
    them is a line of the formatted critique of the analysis. *)
Theorem analyze_prompt_questions_shown json_loads lower infer prompt user_id tr a tr' :
  analyze_prompt json_loads lower infer prompt user_id tr = (Ok a, tr') ->
  (length (Analysis.questions a) <= 3)%nat /\
  forall q, In q (Analysis.questions a) ->
    In q (format_lines (Analysis.critique a)) /\
    py_contains (format_critique_hebrew (Analysis.critique a)) q = true.
Proof.
  intros H.
  destruct (analyze_prompt_ok _ _ _ _ _ _ _ _ H) as (rc & rv & c & _ & _ & Hc & Hq).
  rewrite Hq, Hc. set (ms := validate_of_response json_loads rv). split.
  - unfold get_questions_for_missing, ranked_params, py_slice_to. rewrite length_map.
    apply firstn_le_length.
  - intros q Hin.
    assert (Hl : In q (format_lines (CritiqueResult.set_missing_params c ms))).
    { unfold get_questions_for_missing in Hin. apply in_map_iff in Hin as (p & <- & Hp).
      apply ranked_params_in in Hp.
      unfold format_lines. cbn [CritiqueResult.missing_params CritiqueResult.set_missing_params].
      apply in_app_iff. right. apply in_app_iff. right. apply in_app_iff. right.
      destruct ms as [|p0 ms']; [destruct Hp|].
      right. apply in_map_iff. exists p. split; [reflexivity | exact Hp]. }
    split; [exact Hl|]. unfold format_critique_hebrew. apply py_join_contains. exact Hl.
Qed.

(** Two missing parameters, the required one asked first. *)
Lemma analyze_prompt_questions_shown_witness :
  exists a tr',
    analyze_prompt gaps_loads (fun s => s) gaps_infer "orig" "u" [] = (Ok a, tr') /\
    Analysis.questions a = ["❗ how long?"; "💭 which tone?"] /\
    (length (Analysis.questions a) <= 3)%nat /\
    py_contains (format_critique_hebrew (Analysis.critique a)) "❗ how long?" = true.
Proof.
  remember (analyze_prompt gaps_loads (fun s => s) gaps_infer "orig" "u" []) as run eqn:E.
  destruct run as [[a|e] tr']; [|vm_compute in E; discriminate E].
  destruct (analyze_prompt_questions_shown _ _ _ _ _ _ _ _ (eq_sym E)) as (Hl & Hq).
  assert (Ha : Analysis.questions a = ["❗ how long?"; "💭 which tone?"]).
  { vm_compute in E. injection E as Ea _. subst a. reflexivity. }
  exists a, tr'. split; [reflexivity|]. split; [exact Ha|]. split; [exact Hl|].
  apply Hq. rewrite Ha. left. reflexivity.
Defined.

Lemma drop_while_suffix p l : exists pre, l = (pre ++ drop_while p l)%list.
Proof.
  induction l as [|c t IH]; [exists []; reflexivity|].
  simpl. destruct (p c).
  - destruct IH as (pre & Hpre). exists (c :: pre). simpl. rewrite <- Hpre. reflexivity.
  - exists []. reflexivity.
Qed.

Lemma strip_by_infix p s :
  exists u v, list_ascii_of_string s =
              (u ++ list_ascii_of_string (strip_by p s) ++ v)%list.
Proof.
  unfold strip_by. rewrite list_ascii_of_string_of_list_ascii.
  set (x := list_ascii_of_string s).
  destruct (drop_while_suffix p x) as (pre & Hx).
  set (d1 := drop_while p x) in *.
  destruct (drop_while_suffix p (rev d1)) as (pre2 & Hd).
  exists pre, (rev pre2).
  rewrite Hx at 1. f_equal.
  rewrite <- rev_app_distr, <- Hd, rev_involutive. reflexivity.
Qed.

Lemma list_ascii_of_string_app s t :
  list_ascii_of_string (s ++ t) = (list_ascii_of_string s ++ list_ascii_of_string t)%list.
Proof. induction s as [|a s IH]; [reflexivity|]. simpl. rewrite IH. reflexivity. Qed.

Lemma prefixb_split p s : prefixb p s = true -> exists w, s = (p ++ w)%string.
Proof.
  revert s. induction p as [|a p IH]; intros s H; [exists s; reflexivity|].
  destruct s as [|b s]; [discriminate H|].
  simpl in H. apply andb_true_iff in H as [Hab H].
  apply Ascii.eqb_eq in Hab. subst b.
  destruct (IH s H) as (w & ->). exists w. reflexivity.
Qed.

Lemma substring_0_length w : substring 0 (String.length w) w = w.
Proof. induction w as [|a w IH]; [reflexivity|]. simpl. rewrite IH. reflexivity. Qed.

Lemma clean_refined_infix s :
  exists u v, list_ascii_of_string s =
              (u ++ list_ascii_of_string (clean_refined s) ++ v)%list.
Proof.
  destruct (strip_by_infix is_blank s) as (u1 & v1 & H1).
  destruct (strip_by_infix (Ascii.eqb "`"%char) (py_strip s)) as (u2 & v2 & H2).
  destruct (strip_by_infix is_blank (strip_by (Ascii.eqb "`"%char) (py_strip s)))
    as (u3 & v3 & H3).
  set (t := py_strip (strip_by (Ascii.eqb "`"%char) (py_strip s))) in *.
  assert (Ht : exists u v, list_ascii_of_string s = (u ++ list_ascii_of_string t ++ v)%list).
  { exists (u1 ++ u2 ++ u3)%list, (v3 ++ v2 ++ v1)%list.
    fold (py_strip s) in H1.
    rewrite H1, H2, H3. rewrite !app_assoc. reflexivity. }
  unfold clean_refined. fold t.
  destruct (prefixb ("text" ++ String "010"%char EmptyString) t) eqn:Hp; [|exact Ht].
  destruct (prefixb_split _ _ Hp) as (w & Hw).
  destruct Ht as (u & v & Ht).
  assert (Hsub : substring 5 (String.length t - 5) t = w).
  { rewrite Hw. cbn [append String.length substring].
    replace (S (S (S (S (S (String.length w))))) - 5)%nat with (String.length w) by lia.
    apply substring_0_length. }
  rewrite Hsub. rewrite Hw, list_ascii_of_string_app in Ht.
  exists (u ++ list_ascii_of_string ("text" ++ String "010"%char EmptyString))%list, v.
  rewrite Ht, <- !app_assoc. reflexivity.
Qed.

(** A successful [refine] makes one rewrite call, and the text it returns is
    a piece of the service's answer: the clean-up only removes characters. *)
Theorem refine_output_within_answer infer orig cat c answers tr txt tr' :
  refine infer orig cat c answers tr = (Ok txt, tr') ->
  exists s u v,
    tr' = (tr ++ [EInfer (ReqRefine orig cat c answers) (RText s)])%list /\
    list_ascii_of_string s = (u ++ list_ascii_of_string txt ++ v)%list.
Proof.
  unfold refine, call, lift, ret, bind. cbv beta iota zeta.
  destruct (infer (length tr) (ReqRefine orig cat c answers)) as [|s]; [discriminate|].
  intros H. injection H as <- <-.
  destruct (clean_refined_infix s) as (u & v & Huv).
  exists s, u, v. split; [reflexivity | exact Huv].
Qed.

(** A fenced answer with a [text] tag is reduced to its contents. *)
Lemma refine_output_within_answer_witness :
  exists tr' s u v,
    refine (fun _ _ => RText " ```text
fix this``` ") "orig" CODE (crit_with_score 4) [] []
      = (Ok "fix this", tr') /\
    tr' = ([] ++ [EInfer (ReqRefine "orig" CODE (crit_with_score 4) []) (RText s)])%list /\
    list_ascii_of_string s = (u ++ list_ascii_of_string "fix this" ++ v)%list.
Proof.
  remember (refine (fun _ _ => RText " ```text
fix this``` ") "orig" CODE (crit_with_score 4) [] []) as run eqn:E.
  destruct run as [res tr'].
  assert (Hres : res = Ok "fix this") by (vm_compute in E; injection E as -> _; reflexivity).
  subst res.
  destruct (refine_output_within_answer _ _ _ _ _ _ _ _ (eq_sym E)) as (s & u & v & H).
  exists tr', s, u, v. split; [reflexivity | exact H].
Defined.

Lemma omap_raise {A B} (f : A -> outcome B) l x e :
  In x l -> f x = Raise e -> exists e', omap f l = Raise e'.
Proof.
  induction l as [|y t IH]; [intros []|]. intros [->|Hin] Hx; simpl.
  - rewrite Hx. exists e. reflexivity.
  - destruct (f y); [|eexists; reflexivity].
    destruct (IH Hin Hx) as (e' & He). simpl. rewrite He. exists e'. reflexivity.
Qed.

Lemma omap_ok {A B} (f : A -> outcome B) l ys :
  omap f l = Ok ys -> Forall2 (fun x y => f x = Ok y) l ys.
Proof.
  revert ys. induction l as [|x t IH]; intros ys H.
  - simpl in H. injection H as <-. constructor.
  - simpl in H. destruct (f x) as [y|e] eqn:Hx; [|discriminate H].
    simpl in H. destruct (omap f t) as [ys'|e]; [|discriminate H].
    simpl in H. injection H as <-. constructor; [exact Hx | apply IH; reflexivity].
Qed.

Lemma omap_all_ok {A B} (f : A -> outcome B) l :
  (forall x, In x l -> exists v, f x = Ok v) -> exists vs, omap f l = Ok vs.
Proof.
  induction l as [|x t IH]; intros H; [exists []; reflexivity|].
  destruct (H x (or_introl eq_refl)) as (v & Hv).
  destruct IH as (vs & Hvs); [intros y Hy; apply H; right; exact Hy|].
  exists (v :: vs). simpl. rewrite Hv. cbn [obind]. rewrite Hvs. reflexivity.
Qed.

(** [validate] keeps all the missing parameters of an answer or none: one
    malformed entry of ["missing"], one entry of ["found"] without a name,
    or a ["found"] value that cannot be iterated (such as [null]) empties
    the result; when every entry of ["missing"] parses and ["found"] is
    absent or an iterable of named entries, the result is the parsed
    entries of ["missing"], one for each, in order.  In every case the
    result is empty or that list. *)
Theorem validate_all_or_nothing json_loads s result ml :
  json_loads s = Some result ->
  py_get result "missing" (JArr []) = Ok (JArr ml) ->
  ((exists p e, In p ml /\ missing_of_json p = Raise e) ->
     validate_of_response json_loads (RText s) = []) /\
  (forall fl f e, py_get result "found" (JArr []) = Ok (JArr fl) -> In f fl ->
     py_getitem f "name" = Raise e -> validate_of_response json_loads (RText s) = []) /\
  (forall fj e, py_get result "found" (JArr []) = Ok fj -> py_iter fj = Raise e ->
     validate_of_response json_loads (RText s) = []) /\
  (forall ms fj fl, omap missing_of_json ml = Ok ms ->
     py_get result "found" (JArr []) = Ok fj -> py_iter fj = Ok fl ->
     (forall f, In f fl -> exists v, py_getitem f "name" = Ok v) ->
     validate_of_response json_loads (RText s) = ms) /\
  (validate_of_response json_loads (RText s) = [] \/
   Forall2 (fun p m => missing_of_json p = Ok m) ml
           (validate_of_response json_loads (RText s))).
Proof.
  intros Hj Hm. unfold validate_of_response, validate_of_json. rewrite Hj, Hm.
  cbn [obind py_iter].
  split; [|split; [|split; [|split]]].
  - intros (p & e & Hin & Hp). destruct (omap_raise _ _ _ _ Hin Hp) as (e' & ->).
    reflexivity.
  - intros fl f e Hf Hin Hn. destruct (omap missing_of_json ml); [|reflexivity].
    cbn [obind]. rewrite Hf. cbn [obind py_iter].
    destruct (omap_raise (fun f => py_getitem f "name") _ _ _ Hin Hn) as (e' & He).
    rewrite He. reflexivity.
  - intros fj e Hf Hi. destruct (omap missing_of_json ml); [|reflexivity].
    cbn [obind]. rewrite Hf. cbn [obind]. rewrite Hi. reflexivity.
  - intros ms fj fl Ho Hf Hi Hn. rewrite Ho. cbn [obind]. rewrite Hf. cbn [obind].
    rewrite Hi. cbn [obind].
    destruct (omap_all_ok (fun f => py_getitem f "name") fl Hn) as (vs & Hvs).
    rewrite Hvs. reflexivity.
  - destruct (omap missing_of_json ml) as [ms|e] eqn:Ho; [|left; reflexivity].
    cbn [obind]. destruct (py_get result "found" (JArr [])) as [fj|e]; [|left; reflexivity].
    cbn [obind]. destruct (py_iter fj) as [fl|e]; [|left; reflexivity].
    cbn [obind]. destruct (omap _ fl); [|left; reflexivity].
    right. apply omap_ok. exact Ho.
Qed.

(** One malformed entry drops the well-formed one beside it; the
    well-formed entry alone is kept, unless ["found"] is [null]. *)
Lemma validate_all_or_nothing_witness :
  validate_of_response bad_loads (RText "r") = [] /\
  validate_of_response
    (fun _ => Some (JObj [("missing", JArr [JObj [("name", JStr "tone");
                                                  ("question", JStr "which tone?")]])]))
    (RText "r") = [MissingParameter.mk "tone" "which tone?" "recommended"] /\
  validate_of_response
    (fun _ => Some (JObj [("missing", JArr [JObj [("name", JStr "tone");
                                                  ("question", JStr "which tone?")]]);
                          ("found", JNull)]))
    (RText "r") = [].
Proof.
  split; [|split].
  - apply (proj1 (validate_all_or_nothing bad_loads "r" _
                    [JObj [("name", JStr "tone"); ("question", JStr "which tone?")];
                     JObj [("name", JStr "len")]] eq_refl eq_refl)).
    exists (JObj [("name", JStr "len")]), KeyError. split; [right; left; reflexivity|].
    reflexivity.
  - apply (proj1 (proj2 (proj2 (proj2 (validate_all_or_nothing
             (fun _ => Some (JObj [("missing", JArr [JObj [("name", JStr "tone");
                                                       ("question", JStr "which tone?")]])]))
             "r" _ [JObj [("name", JStr "tone"); ("question", JStr "which tone?")]]
             eq_refl eq_refl))))
             [MissingParameter.mk "tone" "which tone?" "recommended"] (JArr []) []);
      try reflexivity.
    intros f [].
  - apply (proj1 (proj2 (proj2 (validate_all_or_nothing
             (fun _ => Some (JObj [("missing", JArr [JObj [("name", JStr "tone");
                                                       ("question", JStr "which tone?")]]);
                                   ("found", JNull)]))
             "r" _ [JObj [("name", JStr "tone"); ("question", JStr "which tone?")]]
             eq_refl eq_refl))) JNull TypeError); reflexivity.
Defined.

(** A successful [quick_critique] makes the classification call and one
    critique call, and returns the formatted critique of that call's answer;
    the text opens with the score line, whose score lies in [[1, 10]]. *)
Theorem quick_critique_ok json_loads lower infer prompt tr txt tr' :
  quick_critique json_loads lower infer prompt tr = (Ok txt, tr') ->
  exists rc c,
    tr' = (tr ++ [EInfer (ReqClassify prompt) (infer (length tr) (ReqClassify prompt));
                  EInfer (ReqCritique prompt
                            (Some (fst (detect_category lower json_loads
                                          (infer (length tr) (ReqClassify prompt))
                                          prompt)))) rc])%list /\
    critique_of_response json_loads rc = Ok c /\
    txt = format_critique_hebrew c /\
    (1 <= CritiqueResult.overall_score c <= 10)%Z /\
    prefixb (score_emoji (CritiqueResult.overall_score c) ++ " **ציון כללי: "
             ++ py_str_int (CritiqueResult.overall_score c) ++ "/10**" ++ nl) txt = true.
Proof.
  unfold quick_critique, critique, call, lift, ret, bind. cbv beta iota zeta.
  destruct (detect_category lower json_loads _ prompt) as [cat conf].
  destruct (critique_of_response json_loads _) as [c|e] eqn:Hc; [|discriminate].
  intros H. injection H as <- <-.
  eexists. exists c. split; [simpl; rewrite <- app_assoc; reflexivity|].
  split; [exact Hc|]. split; [reflexivity|].
  split; [eapply crit_response_range; exact Hc|].
  unfold format_critique_hebrew, format_lines. cbn [app py_join]. apply prefixb_app.
Qed.

(** The quick critique of a service that scores 4 opens with the line of
    score 4. *)
Lemma quick_critique_ok_witness :
  exists txt tr',
    quick_critique demo_loads (fun s => s) (demo_infer "score4") "orig" [] = (Ok txt, tr') /\
    prefixb (score_emoji 4 ++ " **ציון כללי: " ++ py_str_int 4 ++ "/10**" ++ nl) txt = true.
Proof.
  remember (quick_critique demo_loads (fun s => s) (demo_infer "score4") "orig" []) as run eqn:E.
  destruct run as [[txt|e] tr']; [|vm_compute in E; discriminate E].
  destruct (quick_critique_ok _ _ _ _ _ _ _ (eq_sym E)) as (rc & c & Htr & Hc & Ht & _ & Hp).
  exists txt, tr'. split; [reflexivity|].
  assert (Hrc : rc = RText "score4").
  { vm_compute in E. injection E as _ Etr. rewrite Htr in Etr.
    vm_compute in Etr. injection Etr as Er. exact Er. }
  subst rc. vm_compute in Hc. injection Hc as <-. exact Hp.
Defined.
